(** * VMFS SAN datastore reconciliation: a shallow embedding

    The two Ansible modules of the repository,
    [library/vmware_host_datastore_san.py] (the mutation path) and
    [library/vmware_datastore_san_facts.py] (the read-only facts path),
    are embedded as Rocq functions.  The vSphere inventory they talk to is
    an external collaborator: it is taken as an interface
    ([InventoryApi]) over an abstract world type, every remote method
    being a function of the world that either faults or answers.  The
    reconciler runs in a small monad that threads the world, records the
    remote calls it issues, and distinguishes a Python exception (which
    [except Exception] catches) from the [SystemExit] behind
    [exit_json] / [fail_json] (which it does not). *)

From Stdlib Require Import List String Ascii Bool Arith Lia.
Import ListNotations.
Open Scope string_scope.

(** ** Python string and list primitives used by the modules *)

Module Py.

(** [str.lower()] on ASCII text (device identifiers are hexadecimal). *)
Definition lower_ascii (c : ascii) : ascii :=
  let n := nat_of_ascii c in
  if ((65 <=? n) && (n <=? 90))%nat then ascii_of_nat (n + 32) else c.

Fixpoint lower (s : string) : string :=
  match s with
  | EmptyString => EmptyString
  | String c s' => String (lower_ascii c) (lower s')
  end.

(** [s.split(sep)] for a one-character separator: never the empty list. *)
Fixpoint split (sep : ascii) (s : string) : list string :=
  match s with
  | EmptyString => [EmptyString]
  | String c s' =>
      if Ascii.eqb c sep then EmptyString :: split sep s'
      else match split sep s' with
           | [] => [String c EmptyString]
           | w :: ws => String c w :: ws
           end
  end.

(** [s.split('.')[-1]]: the index is in range because [split] is never
    empty (lemma [split_nonempty]), so no [IndexError] path exists. *)
Definition split_dot_last (s : string) : string :=
  last (split "." s) EmptyString.

(** [sub in s] on strings: [sub] occurs as a contiguous substring. *)
Fixpoint str_in (sub s : string) : bool :=
  String.prefix sub s ||
  match s with
  | EmptyString => false
  | String _ s' => str_in sub s'
  end.

(** [x in l] on a list of strings. *)
Definition list_in (x : string) (l : list string) : bool :=
  existsb (String.eqb x) l.

(** Truthiness of an optional string parameter: [None] and [''] are false. *)
Definition truthy (o : option string) : bool :=
  match o with
  | Some (String _ _) => true
  | _ => false
  end.

(** [str(x)] of an optional string: [str(None) = 'None']. *)
Definition str (o : option string) : string :=
  match o with
  | Some s => s
  | None => "None"
  end.

End Py.

(** ** The vSphere data objects the modules read *)

Module Vim.

(** Exception classes the handlers tell apart.  The [vim.fault.*] classes
    derive from [vmodl.MethodFault], [vmodl.fault.InvalidArgument] from
    [vmodl.RuntimeFault]; [PyException] stands for every other
    [Exception] (IndexError, AttributeError, TaskError, ...). *)
Inductive ExnClass :=
| NotFound | DuplicateName | HostConfigFault | ResourceInUse
| InvalidArgument | MethodFault | RuntimeFault | PyException.

(** An exception value: its class, its [.msg] attribute and [str(e)]. *)
Record Exn := {
  exn_class : ExnClass;
  fault_msg : string;
  exn_str : string
}.

Definition IndexError : Exn :=
  {| exn_class := PyException; fault_msg := EmptyString;
     exn_str := "list index out of range" |}.

(** The text of an [AttributeError] names the object's type as well; no
    handler looks into it, so only the attribute is kept. *)
Definition AttributeError (what : string) : Exn :=
  {| exn_class := PyException; fault_msg := EmptyString;
     exn_str := "object has no attribute '" ++ what ++ "'" |}.

Record HostSystem := {
  h_name : string;          (* host.name *)
  h_parent_name : string    (* host.parent.name *)
}.

Record HostScsiDiskPartition := {
  diskName : string;
  partition : nat
}.

Record HostVmfsVolume := {
  vmfs_type : string;
  uuid : string;
  extent : list HostScsiDiskPartition
}.

Record DatastoreSummary := {
  s_name : string;
  s_maintenanceMode : string;
  s_url : string
}.

(** [datastore.parent]: only whether it is a [vim.StoragePod] and its name
    are read. *)
Record ParentRef := {
  is_StoragePod : bool;
  p_name : string
}.

Record DatastoreHostMount := { key : HostSystem }.

(** A datastore handle.  [info_vmfs] is [datastore.info.vmfs]; it is
    missing ([None]) on a datastore that is not VMFS, where reading it
    raises [AttributeError]. *)
Record Datastore := {
  summary : DatastoreSummary;
  parent : option ParentRef;
  info_vmfs : option HostVmfsVolume;
  host : list DatastoreHostMount
}.

Record HostVmfsSpec := {
  vs_extent : HostScsiDiskPartition;
  volumeName : string
}.

Record VmfsDatastoreCreateSpec := {
  cs_vmfs : HostVmfsSpec;
  cs_diskUuid : string
}.

Record VmfsDatastoreExpandSpec := {
  es_extent : HostScsiDiskPartition;
  es_totalSectors : nat
}.

(** [VmfsDatastoreOption]: only [.spec] is read. *)
Record VmfsDatastoreOption (S : Type) := { spec : S }.
Arguments spec {S} _.
Arguments Build_VmfsDatastoreOption {S} _.

Record ManagedEntity := {
  me_name : string;
  me_ref : string
}.

Record Folder := {
  f_name : string;
  childEntity : list ManagedEntity
}.

Record Task := { task_ref : string }.

(** Remote method invocations, as the reconciler issues them. *)
Inductive Call :=
| CRescanAllHba (h : HostSystem)
| CRescanVmfs (h : HostSystem)
| CUnmountVmfsVolume (h : HostSystem) (vmfsUuid : string)
| CRemoveDatastore (h : HostSystem) (ds : Datastore)
| CQueryVmfsDatastoreCreateOptions (h : HostSystem) (devicePath : string)
| CCreateVmfsDatastore (h : HostSystem) (s : VmfsDatastoreCreateSpec)
| CQueryVmfsDatastoreExpandOptions (h : HostSystem) (ds : Datastore)
| CExpandVmfsDatastore (h : HostSystem) (ds : Datastore)
                       (s : VmfsDatastoreExpandSpec)
| CMoveIntoFolder_Task (tgt : ManagedEntity) (l : list ManagedEntity)
| CWaitForTask (t : Task).

(** The Inventory & Task API over a world [W].  Name lookups are reads of
    the world; remote methods either raise or answer, and the mutating
    ones return the next world. *)
Class InventoryApi (W : Type) := {
  find_hostsystem_by_name : W -> string -> option HostSystem;
  find_datastore_by_name : W -> string -> option Datastore;
  get_all_hosts_by_cluster : W -> string -> list HostSystem;
  get_all_objs_Folder : W -> list Folder;
  get_all_objs_Datastore : W -> list Datastore;
  host_datastore : W -> HostSystem -> list Datastore;
  RescanAllHba : W -> HostSystem -> Exn + W;
  RescanVmfs : W -> HostSystem -> Exn + W;
  UnmountVmfsVolume : W -> HostSystem -> string -> Exn + W;
  RemoveDatastore : W -> HostSystem -> Datastore -> Exn + W;
  QueryVmfsDatastoreCreateOptions :
    W -> HostSystem -> string ->
    Exn + list (VmfsDatastoreOption VmfsDatastoreCreateSpec);
  CreateVmfsDatastore :
    W -> HostSystem -> VmfsDatastoreCreateSpec -> Exn + (Datastore * W);
  QueryVmfsDatastoreExpandOptions :
    W -> HostSystem -> Datastore ->
    Exn + list (VmfsDatastoreOption VmfsDatastoreExpandSpec);
  ExpandVmfsDatastore :
    W -> HostSystem -> Datastore -> VmfsDatastoreExpandSpec -> Exn + W;
  MoveIntoFolder_Task :
    W -> ManagedEntity -> list ManagedEntity -> Exn + (Task * W);
  wait_for_task : W -> Task -> Exn + ((bool * string) * W);
  connect_to_api : W -> Exn + unit
}.

End Vim.

(** ** Control flow of an Ansible module

    [exit_json] and [fail_json] end the process through [SystemExit],
    which is not an [Exception]: a surrounding [except Exception] lets it
    through.  [Res] keeps the three ways a block can end apart. *)

Module Ansible.
Import Vim.

Inductive Res (J A : Type) :=
| Ret (a : A)          (* the block ran to its end *)
| Raise (e : Exn)      (* a Python exception is propagating *)
| Exit (j : J).        (* exit_json / fail_json was called *)
Arguments Ret {J A} _.
Arguments Raise {J A} _.
Arguments Exit {J A} _.

(** What the mutation module hands to Ansible. *)
Inductive Json :=
| ExitJson (changed : bool) (result : option string)
| FailJson (msg : string).

Section Monad.
Context {W : Type}.

(** A computation reads and updates the world and emits the remote calls
    it issued, oldest first. *)
Definition M (A : Type) : Type := W -> Res Json A * W * list Call.

Definition ret {A} (a : A) : M A := fun w => (Ret a, w, []).

Definition bind {A B} (m : M A) (f : A -> M B) : M B :=
  fun w =>
    match m w with
    | (Ret a, w1, t1) => let '(r, w2, t2) := f a w1 in (r, w2, (t1 ++ t2)%list)
    | (Raise e, w1, t1) => (Raise e, w1, t1)
    | (Exit j, w1, t1) => (Exit j, w1, t1)
    end.

Definition raise {A} (e : Exn) : M A := fun w => (Raise e, w, []).

Definition exit_json {A} (changed : bool) (result : option string) : M A :=
  fun w => (Exit (ExitJson changed result), w, []).

Definition fail_json {A} (msg : string) : M A :=
  fun w => (Exit (FailJson msg), w, []).

(** [try: m  except ... as e: h e]; only [Raise] reaches the handler. *)
Definition try_except {A} (m : M A) (h : Exn -> M A) : M A :=
  fun w =>
    match m w with
    | (Raise e, w1, t1) => let '(r, w2, t2) := h e w1 in (r, w2, (t1 ++ t2)%list)
    | other => other
    end.

(** A read of the inventory through a lookup helper. *)
Definition read {A} (f : W -> A) : M A := fun w => (Ret (f w), w, []).

(** A remote method that answers with a value and the next world. *)
Definition call {A} (c : Call) (op : W -> Exn + (A * W)) : M A :=
  fun w =>
    match op w with
    | inl e => (Raise e, w, [c])
    | inr (a, w') => (Ret a, w', [c])
    end.

(** A remote method with no return value. *)
Definition call_ (c : Call) (op : W -> Exn + W) : M unit :=
  fun w =>
    match op w with
    | inl e => (Raise e, w, [c])
    | inr w' => (Ret tt, w', [c])
    end.

(** A remote query: it answers without changing the world. *)
Definition query {A} (c : Call) (op : W -> Exn + A) : M A :=
  fun w =>
    match op w with
    | inl e => (Raise e, w, [c])
    | inr a => (Ret a, w, [c])
    end.

(** [l[0]], raising [IndexError] on the empty list. *)
Definition index0 {A} (l : list A) : M A :=
  match l with
  | [] => raise IndexError
  | x :: _ => ret x
  end.

(** [for x in l: body x]. *)
Fixpoint for_each {A} (l : list A) (body : A -> M unit) : M unit :=
  match l with
  | [] => ret tt
  | x :: l' => bind (body x) (fun _ => for_each l' body)
  end.

End Monad.

Arguments M W A : clear implicits.

Declare Scope py_scope.
Delimit Scope py_scope with py.
Notation "x <- m ;; k" := (bind m (fun x => k))
  (at level 61, m at next level, right associativity) : py_scope.
Notation "m ;; k" := (bind m (fun _ => k))
  (at level 61, right associativity) : py_scope.

End Ansible.

(** ** library/vmware_host_datastore_san.py *)

Module vmware_host_datastore_san.
Import Vim Ansible.

Inductive State := present | absent.

(** [module.params] after argument parsing: [esxi_hostname] and
    [datastore_name] are required, [state] defaults to [present], the two
    others may be missing. *)
Record Params := {
  p_datastore_name : string;
  p_esxi_hostname : string;
  p_volume_device_name : option string;
  p_state : State;
  p_datastore_cluster_name : option string
}.

(** The attributes [__init__] sets on [self]. *)
Record Self := {
  datastore_name : string;
  esxi_hostname : string;
  volume_device_name : option string;
  state : State;
  datastore_cluster_name : option string;
  esxi : HostSystem
}.

(** [ds_path = "/vmfs/devices/disks/naa." + str(self.volume_device_name)] *)
Definition ds_path (self : Self) : string :=
  "/vmfs/devices/disks/naa." ++ Py.str (volume_device_name self).

Definition error_message_umount (self : Self) : string :=
  "Cannot umount datastore " ++ datastore_name self ++
  " from host " ++ esxi_hostname self.

Definition error_message_mount (self : Self) : string :=
  "Cannot mount datastore " ++ datastore_name self ++
  " on host " ++ esxi_hostname self.

(** [except (vim.fault.NotFound, vim.fault.HostConfigFault,
            vim.fault.ResourceInUse) as fault] *)
Definition umount_fault (c : ExnClass) : bool :=
  match c with
  | NotFound | HostConfigFault | ResourceInUse => true
  | _ => false
  end.

(** [except (vim.fault.NotFound, vim.fault.DuplicateName,
            vim.fault.HostConfigFault, vmodl.fault.InvalidArgument)] *)
Definition mount_fault (c : ExnClass) : bool :=
  match c with
  | NotFound | DuplicateName | HostConfigFault | InvalidArgument => true
  | _ => false
  end.

(** [except (vmodl.RuntimeFault, vmodl.MethodFault)] *)
Definition vmodl_fault (c : ExnClass) : bool :=
  match c with
  | PyException => false
  | _ => true
  end.

(** [spec.vmfs.volumeName = name] *)
Definition set_volumeName (s : VmfsDatastoreCreateSpec) (name : string)
  : VmfsDatastoreCreateSpec :=
  {| cs_vmfs := {| vs_extent := vs_extent (cs_vmfs s); volumeName := name |};
     cs_diskUuid := cs_diskUuid s |}.

(** [[x.diskName.split('.')[-1] for x in vmfs.extent]] *)
Definition existing_wwns (vmfs : HostVmfsVolume) : list string :=
  map (fun x => Py.split_dot_last (diskName x)) (extent vmfs).

(** [[x.spec for x in exp_options if dev in x.spec.extent.diskName]] *)
Definition matching_specs (dev : string)
    (exp_options : list (VmfsDatastoreOption VmfsDatastoreExpandSpec))
  : list VmfsDatastoreExpandSpec :=
  map spec
    (filter (fun x => Py.str_in dev (diskName (es_extent (spec x))))
            exp_options).

Section Reconciler.
Context {W : Type} {api : InventoryApi W}.
Local Open Scope py_scope.

(** [datastore.info.vmfs]; [AttributeError] when the datastore has none. *)
Definition get_info_vmfs (datastore : Datastore) : M W HostVmfsVolume :=
  match info_vmfs datastore with
  | Some vmfs => ret vmfs
  | None => raise (AttributeError "vmfs")
  end.

(** [__init__].  The session set up by the base class is the world the
    run starts in; the first thing read from it is the host. *)
Definition init (p : Params) : M W Self :=
  found <- read (fun w => find_hostsystem_by_name w (p_esxi_hostname p)) ;;
  match found with
  | None =>
      fail_json ("Failed to find ESXi hostname " ++ p_esxi_hostname p ++ " ")
  | Some h =>
      ret {| datastore_name := p_datastore_name p;
             esxi_hostname := p_esxi_hostname p;
             volume_device_name :=
               if Py.truthy (p_volume_device_name p)
               then option_map Py.lower (p_volume_device_name p)
               else p_volume_device_name p;
             state := p_state p;
             datastore_cluster_name := p_datastore_cluster_name p;
             esxi := h |}
  end.

Definition state_exit_unchanged {A} : M W A := exit_json false None.

Definition check_datastore_host_state (self : Self) : M W (option Datastore) :=
  call_ (CRescanAllHba (esxi self)) (fun w => RescanAllHba w (esxi self)) ;;
  read (fun w => find_datastore_by_name w (datastore_name self)).

Definition umount_san_datastore_host (self : Self)
    (datastore : option Datastore) : M W unit :=
  match datastore with
  | None => exit_json false None
  | Some ds =>
      try_except
        (for_each (host ds) (fun h =>
           vmfs <- get_info_vmfs ds ;;
           call_ (CUnmountVmfsVolume (key h) (uuid vmfs))
                 (fun w => UnmountVmfsVolume w (key h) (uuid vmfs))) ;;
         call_ (CRemoveDatastore (esxi self) ds)
               (fun w => RemoveDatastore w (esxi self) ds))
        (fun e =>
           if umount_fault (exn_class e)
           then fail_json (error_message_umount self ++ ": " ++ fault_msg e)
           else fail_json (error_message_umount self ++ ": " ++ exn_str e)) ;;
      exit_json true
        (Some ("Datastore " ++ datastore_name self ++
               " on host " ++ esxi_hostname self))
  end.

Definition rescan_other_hosts_in_cluster (self : Self) : M W unit :=
  cluster_hosts <-
    read (fun w => get_all_hosts_by_cluster w (h_parent_name (esxi self))) ;;
  for_each cluster_hosts (fun h =>
    if negb (String.eqb (h_name h) (esxi_hostname self))
    then call_ (CRescanAllHba h) (fun w => RescanAllHba w h) ;;
         call_ (CRescanVmfs h) (fun w => RescanVmfs w h)
    else ret tt).

(** The [if self.datastore_cluster_name:] block: move the new datastore
    into the datastore-cluster folder and wait for the task. *)
Definition move_into_cluster (self : Self) (cluster : string) : M W string :=
  folders <- read get_all_objs_Folder ;;
  dsfolder <-
    index0 (filter (fun x => String.eqb (f_name x) "datastore") folders) ;;
  srcfolder <-
    index0 (filter (fun x => String.eqb (me_name x) (datastore_name self))
                   (childEntity dsfolder)) ;;
  tgtfolder <-
    index0 (filter (fun x => String.eqb (me_name x) cluster)
                   (childEntity dsfolder)) ;;
  task <- call (CMoveIntoFolder_Task tgtfolder [srcfolder])
               (fun w => MoveIntoFolder_Task w tgtfolder [srcfolder]) ;;
  sr <- call (A := bool * string) (CWaitForTask task)
             (fun w => wait_for_task w task) ;;
  ret ("Datastore " ++ datastore_name self ++
       " of cluster " ++ cluster ++
       " on host " ++ esxi_hostname self ++ " : " ++ snd sr).

Definition mount_san_datastore_host (self : Self)
    (datastore : option Datastore) : M W unit :=
  let host_ds_system := esxi self in
  try_except
    (match datastore with
     | None =>
         vmfs_ds_options <-
           query (CQueryVmfsDatastoreCreateOptions host_ds_system (ds_path self))
                 (fun w => QueryVmfsDatastoreCreateOptions
                             w host_ds_system (ds_path self)) ;;
         option0 <- index0 vmfs_ds_options ;;
         let spec0 := set_volumeName (spec option0) (datastore_name self) in
         ds <- call (CCreateVmfsDatastore host_ds_system spec0)
                    (fun w => CreateVmfsDatastore w host_ds_system spec0) ;;
         result_msg <-
           match datastore_cluster_name self with
           | Some (String c cs) => move_into_cluster self (String c cs)
           | _ => ret ("Datastore " ++ datastore_name self ++
                       " on host " ++ esxi_hostname self)
           end ;;
         rescan_other_hosts_in_cluster self ;;
         exit_json true (Some result_msg)
     | Some ds =>
         vmfs <- get_info_vmfs ds ;;
         match volume_device_name self with
         | Some dev =>
             if Py.list_in dev (existing_wwns vmfs) then
               exp_options <-
                 query (CQueryVmfsDatastoreExpandOptions host_ds_system ds)
                       (fun w => QueryVmfsDatastoreExpandOptions
                                   w host_ds_system ds) ;;
               if (0 <? List.length exp_options)%nat then
                 spec1 <- index0 (matching_specs (Py.lower dev) exp_options) ;;
                 call_ (CExpandVmfsDatastore host_ds_system ds spec1)
                       (fun w => ExpandVmfsDatastore
                                   w host_ds_system ds spec1) ;;
                 exit_json true
                   (Some ("Expanded storage on datastore " ++
                          datastore_name self))
               else ret tt
             else
               (* TODO: Add missing WWN to datastore *)
               ret tt
         | None =>
             (* None in existing_wwns is False: the same else branch *)
             ret tt
         end ;;
         state_exit_unchanged
     end)
    (fun e =>
       if mount_fault (exn_class e)
       then fail_json (error_message_mount self ++ " : " ++ fault_msg e)
       else fail_json (error_message_mount self ++ " : " ++ exn_str e)).

Definition process_state (self : Self) : M W unit :=
  try_except
    (datastore <- check_datastore_host_state self ;;
     match state self with
     | present => mount_san_datastore_host self datastore
     | absent => umount_san_datastore_host self datastore
     end)
    (fun e =>
       if vmodl_fault (exn_class e)
       then fail_json (fault_msg e)
       else fail_json (exn_str e)).

(** [main]: build the object from the parameters, then reconcile. *)
Definition main (p : Params) : M W unit :=
  vmware_host_datastore_san <- init p ;;
  process_state vmware_host_datastore_san.

End Reconciler.

End vmware_host_datastore_san.

(** ** library/vmware_datastore_san_facts.py *)

Module vmware_datastore_san_facts.
Import Vim Ansible.

(** Both parameters are optional. *)
Record Params := {
  p_datastore_name : option string;
  p_esxi_hostname : option string
}.

(** The dictionary [read_datastore] builds: its six keys. *)
Record DatastoreFacts := {
  name : string;
  maintenanceMode : string;
  url : string;
  datastore_cluster : string;
  vmfs_type : string;
  wwn : list string
}.

(** What the facts module hands to Ansible. *)
Inductive FactsJson :=
| ExitJson (changed : bool) (datastores : list DatastoreFacts)
| FailJson (msg : string).

(** The module issues no remote method call; its blocks only end. *)
Definition R (A : Type) : Type := Res FactsJson A.

Definition bind {A B} (m : R A) (f : A -> R B) : R B :=
  match m with
  | Ret a => f a
  | Raise e => Raise e
  | Exit j => Exit j
  end.

Definition try_except {A} (m : R A) (h : Exn -> R A) : R A :=
  match m with
  | Raise e => h e
  | other => other
  end.

(** [datastores.extend([f(x)])] for each [x], in order. *)
Fixpoint collect {A B} (f : A -> R B) (l : list A) : R (list B) :=
  match l with
  | [] => Ret []
  | x :: l' =>
      bind (f x) (fun y => bind (collect f l') (fun ys => Ret (y :: ys)))
  end.

Definition read_datastore (datastore : option Datastore) : R DatastoreFacts :=
  try_except
    (match datastore with
     | None => Raise (AttributeError "summary")
     | Some d =>
         let summary := Vim.summary d in
         let cluster :=
           match parent d with
           | Some p => if is_StoragePod p then p_name p else "N/A"
           | None => "N/A"
           end in
         match info_vmfs d with
         | None => Raise (AttributeError "vmfs")
         | Some vmfs =>
             Ret {| name := s_name summary;
                    maintenanceMode := s_maintenanceMode summary;
                    url := s_url summary;
                    datastore_cluster := cluster;
                    vmfs_type := Vim.vmfs_type vmfs;
                    wwn := map (fun x => Py.split_dot_last (diskName x))
                               (extent vmfs) |}
         end
     end)
    (fun e =>
       if vmware_host_datastore_san.vmodl_fault (exn_class e)
       then Exit (FailJson (fault_msg e))
       else Exit (FailJson (exn_str e))).

Section Facts.
Context {W : Type} {api : InventoryApi W}.

Definition gather_facts (p : Params) (w : W) : R (list DatastoreFacts) :=
  match p_datastore_name p with
  | Some (String c cs) =>
      bind (read_datastore (find_datastore_by_name w (String c cs)))
           (fun d => Ret [d])
  | _ =>
      match p_esxi_hostname p with
      | Some (String c cs) =>
          match find_hostsystem_by_name w (String c cs) with
          | None => Raise (AttributeError "datastore")
          | Some h =>
              collect (fun d => read_datastore (Some d)) (host_datastore w h)
          end
      | _ =>
          collect (fun d => read_datastore (Some d)) (get_all_objs_Datastore w)
      end
  end.

Definition main (HAS_PYVMOMI : bool) (p : Params) (w : W) : R unit :=
  if negb HAS_PYVMOMI
  then Exit (FailJson "pyvmomi is required for this module")
  else
    try_except
      (match connect_to_api w with
       | inl e => Raise e
       | inr _ =>
           bind (gather_facts p w)
                (fun datastores => Exit (ExitJson false datastores))
       end)
      (fun e => Exit (FailJson (exn_str e))).

End Facts.

End vmware_datastore_san_facts.

(** ** A small simulated inventory

    One concrete [InventoryApi], used to run the modules on explicit
    inputs.  Datastores are found by name; a create adds a datastore on
    the spec's extent, mounted by the creating host; an expand uses up
    the expand options on offer for the datastore; an unmount faults on
    the hosts listed in [unmount_faults]. *)

Module Lab.
Import Vim.

Record World := {
  hosts : list HostSystem;
  datastores : list Datastore;
  folders : list Folder;
  create_offers :
    list (string * list (VmfsDatastoreOption VmfsDatastoreCreateSpec));
  expand_offers :
    list (string * list (VmfsDatastoreOption VmfsDatastoreExpandSpec));
  unmount_faults : list (string * Exn)
}.

Fixpoint assoc {A} (k : string) (l : list (string * A)) : option A :=
  match l with
  | [] => None
  | (k', v) :: l' => if String.eqb k k' then Some v else assoc k l'
  end.

Definition ds_name (d : Datastore) : string := s_name (summary d).

Definition with_datastores (w : World) (l : list Datastore) : World :=
  {| hosts := hosts w; datastores := l; folders := folders w;
     create_offers := create_offers w; expand_offers := expand_offers w;
     unmount_faults := unmount_faults w |}.

Definition has_uuid (u : string) (d : Datastore) : bool :=
  match info_vmfs d with
  | Some v => String.eqb (uuid v) u
  | None => false
  end.

Definition drop_mount (h : HostSystem) (d : Datastore) : Datastore :=
  {| summary := summary d; parent := parent d; info_vmfs := info_vmfs d;
     host := filter (fun m => negb (String.eqb (h_name (key m)) (h_name h)))
                    (host d) |}.

Definition new_datastore (h : HostSystem) (s : VmfsDatastoreCreateSpec)
  : Datastore :=
  {| summary := {| s_name := volumeName (cs_vmfs s);
                   s_maintenanceMode := "normal";
                   s_url := "ds:///vmfs/volumes/" ++ cs_diskUuid s |};
     parent := None;
     info_vmfs := Some {| vmfs_type := "VMFS"; uuid := cs_diskUuid s;
                          extent := [vs_extent (cs_vmfs s)] |};
     host := [ {| key := h |} ] |}.

#[export] Instance api : InventoryApi World := {|
  find_hostsystem_by_name w n :=
    find (fun h => String.eqb (h_name h) n) (hosts w);
  find_datastore_by_name w n :=
    find (fun d => String.eqb (ds_name d) n) (datastores w);
  get_all_hosts_by_cluster w c :=
    filter (fun h => String.eqb (h_parent_name h) c) (hosts w);
  get_all_objs_Folder w := folders w;
  get_all_objs_Datastore w := datastores w;
  host_datastore w h :=
    filter (fun d => existsb (fun m => String.eqb (h_name (key m)) (h_name h))
                             (host d))
           (datastores w);
  RescanAllHba w _ := inr w;
  RescanVmfs w _ := inr w;
  UnmountVmfsVolume w h u :=
    match assoc (h_name h) (unmount_faults w) with
    | Some e => inl e
    | None =>
        inr (with_datastores w
               (map (fun d => if has_uuid u d then drop_mount h d else d)
                    (datastores w)))
    end;
  RemoveDatastore w _ ds :=
    inr (with_datastores w
           (filter (fun d => negb (String.eqb (ds_name d) (ds_name ds)))
                   (datastores w)));
  QueryVmfsDatastoreCreateOptions w _ path :=
    inr (match assoc path (create_offers w) with
         | Some l => l
         | None => []
         end);
  CreateVmfsDatastore w h s :=
    inr (new_datastore h s,
         with_datastores w (new_datastore h s :: datastores w));
  QueryVmfsDatastoreExpandOptions w _ ds :=
    inr (match assoc (ds_name ds) (expand_offers w) with
         | Some l => l
         | None => []
         end);
  ExpandVmfsDatastore w _ ds _ :=
    inr {| hosts := hosts w; datastores := datastores w;
           folders := folders w; create_offers := create_offers w;
           expand_offers :=
             filter (fun kv => negb (String.eqb (fst kv) (ds_name ds)))
                    (expand_offers w);
           unmount_faults := unmount_faults w |};
  MoveIntoFolder_Task w _ _ := inr ({| task_ref := "task-1" |}, w);
  wait_for_task w _ := inr ((true, "None"), w);
  connect_to_api _ := inr tt
|}.

(** *** Scenario data *)

Definition H1 : HostSystem := {| h_name := "H1"; h_parent_name := "ClusterA" |}.
Definition H2 : HostSystem := {| h_name := "H2"; h_parent_name := "ClusterA" |}.
Definition H3 : HostSystem := {| h_name := "H3"; h_parent_name := "ClusterB" |}.

Definition device : string := "600508B400105E210000900000490000".
Definition disk : string := "naa.600508b400105e210000900000490000".
Definition other_disk : string := "naa.600508b400105e2100009000004a0000".

Definition create_option : VmfsDatastoreOption VmfsDatastoreCreateSpec :=
  {| spec := {| cs_vmfs := {| vs_extent := {| diskName := disk;
                                              partition := 1 |};
                              volumeName := "unnamed" |};
                cs_diskUuid := "5f3c-0001" |} |}.

Definition second_create_option
  : VmfsDatastoreOption VmfsDatastoreCreateSpec :=
  {| spec := {| cs_vmfs := {| vs_extent := {| diskName := disk;
                                              partition := 2 |};
                              volumeName := "unnamed" |};
                cs_diskUuid := "5f3c-0002" |} |}.

Definition expand_option (d : string) (sectors : nat)
  : VmfsDatastoreOption VmfsDatastoreExpandSpec :=
  {| spec := {| es_extent := {| diskName := d; partition := 1 |};
                es_totalSectors := sectors |} |}.

(** [SAN_DS01], a VMFS datastore on [disk], mounted by [H1] and [H2]. *)
Definition SAN_DS01 : Datastore :=
  {| summary := {| s_name := "SAN_DS01"; s_maintenanceMode := "normal";
                   s_url := "ds:///vmfs/volumes/5f3c-0001" |};
     parent := Some {| is_StoragePod := true; p_name := "Pod1" |};
     info_vmfs := Some {| vmfs_type := "VMFS"; uuid := "5f3c-0001";
                          extent := [ {| diskName := disk;
                                         partition := 1 |} ] |};
     host := [ {| key := H1 |}; {| key := H2 |} ] |}.

(** A local VMFS volume that sits in the plain datastore folder, in no
    datastore cluster. *)
Definition LOCAL_DS : Datastore :=
  {| summary := {| s_name := "LOCAL_DS"; s_maintenanceMode := "normal";
                   s_url := "ds:///vmfs/volumes/5f3c-0009" |};
     parent := Some {| is_StoragePod := false; p_name := "datastore" |};
     info_vmfs := Some {| vmfs_type := "VMFS"; uuid := "5f3c-0009";
                          extent := [ {| diskName := "mpx.vmhba0:C0:T0:L0";
                                         partition := 3 |} ] |};
     host := [ {| key := H1 |} ] |}.

Definition datastore_folder : Folder :=
  {| f_name := "datastore";
     childEntity := [ {| me_name := "SAN_DS01"; me_ref := "datastore-11" |};
                      {| me_name := "Pod1"; me_ref := "group-p7" |} ] |}.

(** No datastore yet; [disk] is free and offers two partition layouts. *)
Definition empty_world : World :=
  {| hosts := [H1; H2; H3]; datastores := [];
     folders := [ {| f_name := "vm"; childEntity := [] |}; datastore_folder ];
     create_offers :=
       [ ("/vmfs/devices/disks/" ++ disk,
          [create_option; second_create_option]) ];
     expand_offers := []; unmount_faults := [] |}.

(** As [empty_world], on a device whose first create layout leaves room:
    once [SAN_DS01] exists the inventory offers to expand it. *)
Definition roomy_world : World :=
  {| hosts := [H1; H2; H3]; datastores := [];
     folders := [datastore_folder];
     create_offers :=
       [ ("/vmfs/devices/disks/" ++ disk, [create_option]) ];
     expand_offers := [ ("SAN_DS01", [expand_option disk 4096]) ];
     unmount_faults := [] |}.

(** [SAN_DS01] exists on [disk] and nothing is on offer. *)
Definition settled_world : World :=
  {| hosts := [H1; H2; H3]; datastores := [SAN_DS01; LOCAL_DS];
     folders := [datastore_folder];
     create_offers := []; expand_offers := []; unmount_faults := [] |}.

(** [SAN_DS01] exists on [disk], whose LUN has grown: expand options are
    on offer, the second and third for [disk]. *)
Definition grown_world : World :=
  {| hosts := [H1; H2; H3]; datastores := [SAN_DS01; LOCAL_DS];
     folders := [datastore_folder];
     create_offers := [];
     expand_offers :=
       [ ("SAN_DS01", [ expand_option other_disk 1024;
                        expand_option disk 2048;
                        expand_option disk 4096 ]) ];
     unmount_faults := [] |}.

(** As [settled_world], with [H2] refusing to unmount. *)
Definition busy_world : World :=
  {| hosts := [H1; H2; H3]; datastores := [SAN_DS01; LOCAL_DS];
     folders := [datastore_folder];
     create_offers := []; expand_offers := [];
     unmount_faults :=
       [ ("H2", {| exn_class := ResourceInUse;
                   fault_msg := "The resource is in use.";
                   exn_str := "(vim.fault.ResourceInUse)" |}) ] |}.

Definition other_device : string := "600508B400105E2100009000004A0000".

(** Desired specs for [SAN_DS01], run against the host named [on]. *)
Definition params_on (on : string) (dev : option string)
    (st : vmware_host_datastore_san.State)
  : vmware_host_datastore_san.Params :=
  {| vmware_host_datastore_san.p_datastore_name := "SAN_DS01";
     vmware_host_datastore_san.p_esxi_hostname := on;
     vmware_host_datastore_san.p_volume_device_name := dev;
     vmware_host_datastore_san.p_state := st;
     vmware_host_datastore_san.p_datastore_cluster_name := None |}.

Definition params := params_on "H1".

(** The same desired spec, asking for placement in the datastore cluster
    [cluster]. *)
Definition in_cluster (cluster : string)
    (p : vmware_host_datastore_san.Params)
  : vmware_host_datastore_san.Params :=
  {| vmware_host_datastore_san.p_datastore_name :=
       vmware_host_datastore_san.p_datastore_name p;
     vmware_host_datastore_san.p_esxi_hostname :=
       vmware_host_datastore_san.p_esxi_hostname p;
     vmware_host_datastore_san.p_volume_device_name :=
       vmware_host_datastore_san.p_volume_device_name p;
     vmware_host_datastore_san.p_state :=
       vmware_host_datastore_san.p_state p;
     vmware_host_datastore_san.p_datastore_cluster_name := Some cluster |}.

(** As [empty_world], without the [datastore] folder the folder move
    looks for. *)
Definition folderless_world : World :=
  {| hosts := hosts empty_world; datastores := [];
     folders := [ {| f_name := "vm"; childEntity := [] |} ];
     create_offers := create_offers empty_world;
     expand_offers := []; unmount_faults := [] |}.

(** The datastore the first create option yields on [H1]. *)
Definition created_SAN_DS01 : Datastore :=
  new_datastore H1
    (vmware_host_datastore_san.set_volumeName (spec create_option)
                                              "SAN_DS01").

Definition SAN_DS01_vmfs : HostVmfsVolume :=
  {| vmfs_type := "VMFS"; uuid := "5f3c-0001";
     extent := [ {| diskName := disk; partition := 1 |} ] |}.

End Lab.

(** ** Vocabulary of the statements *)

Module Props.
Import Vim Ansible.

(** [c] occurs in [s]. *)
Fixpoint has_char (c : ascii) (s : string) : bool :=
  match s with
  | EmptyString => false
  | String a s' => Ascii.eqb a c || has_char c s'
  end.

(** [sep.join(l)]. *)
Fixpoint join (sep : ascii) (l : list string) : string :=
  match l with
  | [] => EmptyString
  | [w] => w
  | w :: l' => w ++ String sep (join sep l')
  end.

(** [seg] is the trailing dot-separated segment of [s]: it holds no dot
    and [s] is [seg] itself or ends in a dot followed by [seg]. *)
Definition trailing_segment_of (seg s : string) : Prop :=
  has_char "." seg = false /\
  (s = seg \/ exists pre, s = pre ++ String "." seg).

Definition is_create (c : Call) : bool :=
  match c with CCreateVmfsDatastore _ _ => true | _ => false end.

Definition is_expand (c : Call) : bool :=
  match c with CExpandVmfsDatastore _ _ _ => true | _ => false end.

Definition is_remove (c : Call) : bool :=
  match c with CRemoveDatastore _ _ => true | _ => false end.

Definition is_unmount (c : Call) : bool :=
  match c with CUnmountVmfsVolume _ _ => true | _ => false end.

(** The rescans of the sibling hosts, in order: for each host of the list
    whose name is not [target], an HBA rescan then a VMFS rescan. *)
Definition sibling_rescans (target : string) (l : list HostSystem)
  : list Call :=
  flat_map (fun h => [CRescanAllHba h; CRescanVmfs h])
           (filter (fun h => negb (String.eqb (h_name h) target)) l).

(** One unmount call per mounting host, by VMFS UUID. *)
Definition unmount_calls (u : string) (l : list DatastoreHostMount)
  : list Call :=
  map (fun m => CUnmountVmfsVolume (key m) u) l.

(** The object [__init__] builds once the host [h] has resolved. *)
Definition self_of (p : vmware_host_datastore_san.Params) (h : HostSystem)
  : vmware_host_datastore_san.Self :=
  {| vmware_host_datastore_san.datastore_name :=
       vmware_host_datastore_san.p_datastore_name p;
     vmware_host_datastore_san.esxi_hostname :=
       vmware_host_datastore_san.p_esxi_hostname p;
     vmware_host_datastore_san.volume_device_name :=
       if Py.truthy (vmware_host_datastore_san.p_volume_device_name p)
       then option_map Py.lower
              (vmware_host_datastore_san.p_volume_device_name p)
       else vmware_host_datastore_san.p_volume_device_name p;
     vmware_host_datastore_san.state :=
       vmware_host_datastore_san.p_state p;
     vmware_host_datastore_san.datastore_cluster_name :=
       vmware_host_datastore_san.p_datastore_cluster_name p;
     vmware_host_datastore_san.esxi := h |}.

Section WithApi.
Context {W : Type} {api : InventoryApi W}.

(** The inventory's answers to unmounting [u] on each host of [l] in
    turn: the first fault, or the world after the last unmount. *)
Fixpoint unmount_all (w : W) (l : list DatastoreHostMount) (u : string)
  : Exn + W :=
  match l with
  | [] => inr w
  | m :: l' =>
      match UnmountVmfsVolume w (key m) u with
      | inl e => inl e
      | inr w' => unmount_all w' l' u
      end
  end.

(** The device identifier the reconciler compares and looks up: the
    parameter lower-cased when it is given and not empty. *)
Definition device_of (p : vmware_host_datastore_san.Params)
  : option string :=
  if Py.truthy (vmware_host_datastore_san.p_volume_device_name p)
  then option_map Py.lower (vmware_host_datastore_san.p_volume_device_name p)
  else vmware_host_datastore_san.p_volume_device_name p.




(** The datastores the facts path reports on. *)
Definition selected (p : vmware_datastore_san_facts.Params) (w : W)
  : list Datastore :=
  match vmware_datastore_san_facts.p_datastore_name p with
  | Some (String c cs) =>
      match find_datastore_by_name w (String c cs) with
      | Some d => [d]
      | None => []
      end
  | _ =>
      match vmware_datastore_san_facts.p_esxi_hostname p with
      | Some (String c cs) =>
          match find_hostsystem_by_name w (String c cs) with
          | Some h => host_datastore w h
          | None => []
          end
      | _ => get_all_objs_Datastore w
      end
  end.

End WithApi.

(** The record [r] describes the datastore [d] as the facts output
    promises. *)
Definition describes (d : Datastore)
    (r : vmware_datastore_san_facts.DatastoreFacts) : Prop :=
  vmware_datastore_san_facts.name r = s_name (summary d) /\
  vmware_datastore_san_facts.maintenanceMode r
    = s_maintenanceMode (summary d) /\
  vmware_datastore_san_facts.url r = s_url (summary d) /\
  vmware_datastore_san_facts.datastore_cluster r
    = match parent d with
      | Some p => if is_StoragePod p then p_name p else "N/A"
      | None => "N/A"
      end /\
  exists vmfs,
    info_vmfs d = Some vmfs /\
    vmware_datastore_san_facts.vmfs_type r = Vim.vmfs_type vmfs /\
    Forall2 trailing_segment_of
            (vmware_datastore_san_facts.wwn r)
            (map diskName (extent vmfs)).

End Props.

(** ** Vocabulary for the behaviour of whole runs *)

Module Behaviour.
Import Vim Ansible.

(** The text a handler of [mount_san_datastore_host] reports for [e]. *)
Definition mount_text (e : Exn) : string :=
  if vmware_host_datastore_san.mount_fault (exn_class e)
  then fault_msg e else exn_str e.

(** The text a handler of [umount_san_datastore_host] reports for [e]. *)
Definition umount_text (e : Exn) : string :=
  if vmware_host_datastore_san.umount_fault (exn_class e)
  then fault_msg e else exn_str e.

(** The text the handler of [process_state] reports for [e]. *)
Definition state_text (e : Exn) : string :=
  if vmware_host_datastore_san.vmodl_fault (exn_class e)
  then fault_msg e else exn_str e.

(** The desired spec [p] with another [volume_device_name]. *)
Definition with_device (p : vmware_host_datastore_san.Params)
    (dev : option string) : vmware_host_datastore_san.Params :=
  {| vmware_host_datastore_san.p_datastore_name :=
       vmware_host_datastore_san.p_datastore_name p;
     vmware_host_datastore_san.p_esxi_hostname :=
       vmware_host_datastore_san.p_esxi_hostname p;
     vmware_host_datastore_san.p_volume_device_name := dev;
     vmware_host_datastore_san.p_state :=
       vmware_host_datastore_san.p_state p;
     vmware_host_datastore_san.p_datastore_cluster_name :=
       vmware_host_datastore_san.p_datastore_cluster_name p |}.

(** The facts parameters [p] with another [esxi_hostname]. *)
Definition with_esxi_hostname (p : vmware_datastore_san_facts.Params)
    (h : option string) : vmware_datastore_san_facts.Params :=
  {| vmware_datastore_san_facts.p_datastore_name :=
       vmware_datastore_san_facts.p_datastore_name p;
     vmware_datastore_san_facts.p_esxi_hostname := h |}.

(** Calls that change a datastore. *)
Definition is_mutation (c : Call) : bool :=
  match c with
  | CCreateVmfsDatastore _ _ | CExpandVmfsDatastore _ _ _
  | CRemoveDatastore _ _ => true
  | _ => false
  end.

(** Calls a [state=present] run may issue. *)
Definition present_call (c : Call) : bool :=
  match c with
  | CUnmountVmfsVolume _ _ | CRemoveDatastore _ _ => false
  | _ => true
  end.

(** Calls a [state=absent] run may issue. *)
Definition absent_call (c : Call) : bool :=
  match c with
  | CRescanAllHba _ | CUnmountVmfsVolume _ _ | CRemoveDatastore _ _ => true
  | _ => false
  end.

(** [c] is not a VMFS rescan of the host named [target]. *)
Definition spares_target (target : string) (c : Call) : bool :=
  match c with
  | CRescanVmfs x => negb (String.eqb (h_name x) target)
  | _ => true
  end.

Section WithApi.
Context {W : Type} {api : InventoryApi W}.

(** Every call [m] issues, from any world, satisfies [P]. *)
Definition emits {A} (P : Call -> bool) (m : M W A) : Prop :=
  forall w, Forall (fun c => P c = true) (snd (m w)).




(** The inventory's answers to rescanning, HBA then VMFS, each host of
    [l] not named [target], in turn: the first fault, or the world after
    the last rescan. *)
Fixpoint rescan_all (target : string) (w : W) (l : list HostSystem)
  : Exn + W :=
  match l with
  | [] => inr w
  | x :: l' =>
      if negb (String.eqb (h_name x) target) then
        match RescanAllHba w x with
        | inl e => inl e
        | inr wa =>
            match RescanVmfs wa x with
            | inl e => inl e
            | inr wb => rescan_all target wb l'
            end
        end
      else rescan_all target w l'
  end.

(** The facts parameters select something to report on: a named
    datastore is found, or else a named host resolves. *)
Definition resolvable (p : vmware_datastore_san_facts.Params) (w : W)
  : Prop :=
  match vmware_datastore_san_facts.p_datastore_name p with
  | Some (String c cs) => find_datastore_by_name w (String c cs) <> None
  | _ =>
      match vmware_datastore_san_facts.p_esxi_hostname p with
      | Some (String c cs) => find_hostsystem_by_name w (String c cs) <> None
      | _ => True
      end
  end.

End WithApi.

Definition is_vmfs (d : Datastore) : bool :=
  match info_vmfs d with Some _ => true | None => false end.


End Behaviour.

(** ** A simulated inventory whose calls can be made to fault

    [Lab]'s inventory with a script of faults laid over it: a remote
    method listed in [faults] raises the fault given for it, every other
    call is answered as [Lab] answers it. *)

Module Faulty.
Import Vim.
#[local] Existing Instance Lab.api.

Inductive Point :=
| PRescanAllHba (on : string)
| PRescanVmfs (on : string)
| PRemoveDatastore
| PQueryCreateOptions
| PCreateVmfsDatastore
| PQueryExpandOptions
| PExpandVmfsDatastore
| PMoveIntoFolder
| PWaitForTask.

Definition point_eqb (a b : Point) : bool :=
  match a, b with
  | PRescanAllHba x, PRescanAllHba y => String.eqb x y
  | PRescanVmfs x, PRescanVmfs y => String.eqb x y
  | PRemoveDatastore, PRemoveDatastore => true
  | PQueryCreateOptions, PQueryCreateOptions => true
  | PCreateVmfsDatastore, PCreateVmfsDatastore => true
  | PQueryExpandOptions, PQueryExpandOptions => true
  | PExpandVmfsDatastore, PExpandVmfsDatastore => true
  | PMoveIntoFolder, PMoveIntoFolder => true
  | PWaitForTask, PWaitForTask => true
  | _, _ => false
  end.

Record World := {
  base : Lab.World;
  faults : list (Point * Exn)
}.

Fixpoint fault_at (pt : Point) (l : list (Point * Exn)) : option Exn :=
  match l with
  | [] => None
  | (q, e) :: l' => if point_eqb pt q then Some e else fault_at pt l'
  end.

(** Answer as [Lab] does unless [pt] is scripted to fault. *)
Definition guarded {A} (w : World) (pt : Point) (answer : Exn + A)
  : Exn + A :=
  match fault_at pt (faults w) with
  | Some e => inl e
  | None => answer
  end.

Definition over (w : World) (r : Exn + Lab.World) : Exn + World :=
  match r with
  | inl e => inl e
  | inr b => inr {| base := b; faults := faults w |}
  end.

Definition over_with {A} (w : World) (r : Exn + (A * Lab.World))
  : Exn + (A * World) :=
  match r with
  | inl e => inl e
  | inr (a, b) => inr (a, {| base := b; faults := faults w |})
  end.

#[export] Instance api : InventoryApi World := {|
  find_hostsystem_by_name w n := find_hostsystem_by_name (base w) n;
  find_datastore_by_name w n := find_datastore_by_name (base w) n;
  get_all_hosts_by_cluster w c := get_all_hosts_by_cluster (base w) c;
  get_all_objs_Folder w := get_all_objs_Folder (base w);
  get_all_objs_Datastore w := get_all_objs_Datastore (base w);
  host_datastore w h := host_datastore (base w) h;
  RescanAllHba w h :=
    guarded w (PRescanAllHba (h_name h)) (over w (RescanAllHba (base w) h));
  RescanVmfs w h :=
    guarded w (PRescanVmfs (h_name h)) (over w (RescanVmfs (base w) h));
  UnmountVmfsVolume w h u := over w (UnmountVmfsVolume (base w) h u);
  RemoveDatastore w h ds :=
    guarded w PRemoveDatastore (over w (RemoveDatastore (base w) h ds));
  QueryVmfsDatastoreCreateOptions w h path :=
    guarded w PQueryCreateOptions
            (QueryVmfsDatastoreCreateOptions (base w) h path);
  CreateVmfsDatastore w h s :=
    guarded w PCreateVmfsDatastore
            (over_with w (CreateVmfsDatastore (base w) h s));
  QueryVmfsDatastoreExpandOptions w h ds :=
    guarded w PQueryExpandOptions
            (QueryVmfsDatastoreExpandOptions (base w) h ds);
  ExpandVmfsDatastore w h ds s :=
    guarded w PExpandVmfsDatastore
            (over w (ExpandVmfsDatastore (base w) h ds s));
  MoveIntoFolder_Task w tgt l :=
    guarded w PMoveIntoFolder
            (over_with w (MoveIntoFolder_Task (base w) tgt l));
  wait_for_task w t :=
    guarded w PWaitForTask (over_with w (wait_for_task (base w) t));
  connect_to_api w := connect_to_api (base w)
|}.

Definition host_config_fault : Exn :=
  {| exn_class := HostConfigFault;
     fault_msg := "An error occurred during host configuration.";
     exn_str := "(vim.fault.HostConfigFault)" |}.

Definition with_fault (pt : Point) (b : Lab.World) : World :=
  {| base := b; faults := [ (pt, host_config_fault) ] |}.

End Faulty.

(** ** Further scenario data *)

Module Cases.
Import Vim Lab.

(** [SAN_DS01] exists on [disk]; the only expand option on offer is for
    another disk. *)
Definition mismatch_world : World :=
  {| hosts := [H1; H2; H3]; datastores := [SAN_DS01; LOCAL_DS];
     folders := [datastore_folder];
     create_offers := [];
     expand_offers := [ ("SAN_DS01", [ expand_option other_disk 1024 ]) ];
     unmount_faults := [] |}.

(** [SAN_DS01] as a VMFS datastore no host mounts any more. *)
Definition idle_SAN_DS01 : Datastore :=
  {| summary := summary SAN_DS01; parent := parent SAN_DS01;
     info_vmfs := info_vmfs SAN_DS01; host := [] |}.

Definition idle_world : World :=
  {| hosts := [H1; H2; H3]; datastores := [idle_SAN_DS01];
     folders := [datastore_folder];
     create_offers := []; expand_offers := []; unmount_faults := [] |}.

(** A datastore named [SAN_DS01] that is not VMFS (an NFS export),
    mounted by [H1]. *)
Definition nfs_SAN_DS01 : Datastore :=
  {| summary := {| s_name := "SAN_DS01"; s_maintenanceMode := "normal";
                   s_url := "ds:///vmfs/volumes/0a1b-nfs" |};
     parent := None;
     info_vmfs := None;
     host := [ {| key := H1 |} ] |}.

Definition nfs_world : World :=
  {| hosts := [H1; H2; H3]; datastores := [LOCAL_DS; nfs_SAN_DS01];
     folders := [datastore_folder];
     create_offers := []; expand_offers := []; unmount_faults := [] |}.

(** The world [settled_world] becomes once [H1] and [H2] have unmounted
    [SAN_DS01]. *)
Definition unmounted_world : World :=
  with_datastores settled_world
    [drop_mount H2 (drop_mount H1 SAN_DS01); LOCAL_DS].

Definition facts_params (ds on : option string)
  : vmware_datastore_san_facts.Params :=
  {| vmware_datastore_san_facts.p_datastore_name := ds;
     vmware_datastore_san_facts.p_esxi_hostname := on |}.

End Cases.

(** * Properties *)

(** ** Strings *)

Section Strings.
Import Py Props.

Lemma append_assoc (a b c : string) : (a ++ b) ++ c = a ++ (b ++ c).
Proof.
  induction a as [|x a IH]; simpl; [reflexivity|]. rewrite IH. reflexivity.
Qed.

Lemma split_nonempty (sep : ascii) (s : string) : split sep s <> [].
Proof.
  destruct s as [|c s]; simpl; [discriminate|].
  destruct (Ascii.eqb c sep); [discriminate|].
  destruct (split sep s); discriminate.
Qed.

Lemma join_split (sep : ascii) (s : string) : join sep (split sep s) = s.
Proof.
  induction s as [|c s IH]; simpl; [reflexivity|].
  destruct (Ascii.eqb_spec c sep) as [->|Hne].
  - pose proof (split_nonempty sep s) as Hn.
    simpl. destruct (split sep s) as [|w ws]; [contradiction|].
    rewrite IH. reflexivity.
  - pose proof (split_nonempty sep s) as Hn.
    destruct (split sep s) as [|w ws]; [contradiction|].
    destruct ws as [|w' ws]; simpl in *; rewrite <- IH; reflexivity.
Qed.

Lemma split_no_sep (sep : ascii) (s : string) :
  Forall (fun w => has_char sep w = false) (split sep s).
Proof.
  induction s as [|c s IH]; simpl.
  - constructor; [reflexivity|constructor].
  - destruct (Ascii.eqb c sep) eqn:E.
    + constructor; [reflexivity|exact IH].
    + pose proof (split_nonempty sep s) as Hn.
      destruct (split sep s) as [|w ws]; [contradiction|].
      inversion IH; subst. constructor; [|assumption].
      simpl. rewrite E. assumption.
Qed.

Lemma join_last (sep : ascii) (l : list string) :
  l <> [] ->
  join sep l = last l EmptyString \/
  exists pre, join sep l = pre ++ String sep (last l EmptyString).
Proof.
  induction l as [|w l IH]; [contradiction|]. intros _.
  destruct l as [|w' l].
  - left. reflexivity.
  - right. destruct IH as [IH|[pre IH]]; [discriminate| |].
    + exists w. change (join sep (w :: w' :: l))
        with (w ++ String sep (join sep (w' :: l))).
      rewrite IH. reflexivity.
    + exists (w ++ String sep pre).
      change (join sep (w :: w' :: l))
        with (w ++ String sep (join sep (w' :: l))).
      rewrite IH. change (last (w :: w' :: l) EmptyString)
        with (last (w' :: l) EmptyString).
      rewrite append_assoc. reflexivity.
Qed.

(** [s.split('.')[-1]] is the trailing dot-separated segment of [s]. *)
Lemma split_dot_last_trailing (s : string) :
  trailing_segment_of (split_dot_last s) s.
Proof.
  unfold trailing_segment_of, split_dot_last. split.
  - pose proof (split_no_sep "." s) as Hf.
    pose proof (split_nonempty "." s) as Hn.
    rewrite Forall_forall in Hf. apply Hf.
    destruct (exists_last Hn) as [l' [a ->]].
    rewrite last_last. apply in_or_app. right. left. reflexivity.
  - pose proof (join_last "." (split "." s) (split_nonempty "." s)) as H.
    rewrite join_split in H. exact H.
Qed.

Lemma lower_ascii_idem (c : ascii) : lower_ascii (lower_ascii c) = lower_ascii c.
Proof.
  destruct c as [[] [] [] [] [] [] [] []]; reflexivity.
Qed.

Lemma lower_idem (s : string) : lower (lower s) = lower s.
Proof.
  induction s as [|c s IH]; simpl; [reflexivity|].
  rewrite lower_ascii_idem, IH. reflexivity.
Qed.

Lemma prefix_app (s t : string) : String.prefix s (s ++ t) = true.
Proof.
  induction s as [|c s IH]; simpl.
  - destruct t; reflexivity.
  - destruct (ascii_dec c c) as [_|Hn]; [exact IH|contradiction].
Qed.

(** Python's [in]: a string occurs in anything built around it. *)
Lemma str_in_app (a s b : string) : str_in s (a ++ s ++ b) = true.
Proof.
  induction a as [|c a IH]; simpl.
  - pose proof (prefix_app s b) as H.
    destruct (s ++ b); cbn [str_in]; rewrite H; reflexivity.
  - rewrite IH. apply orb_true_r.
Qed.

End Strings.

(** ** The mutation path *)

Section Reconciliation.
Import Py Vim Ansible Props vmware_host_datastore_san.
Context {W : Type} {api : InventoryApi W}.

#[local] Arguments matching_specs : simpl never.
#[local] Arguments existing_wwns : simpl never.
#[local] Arguments for_each : simpl never.
#[local] Arguments append : simpl never.

(** Unfold the control-flow combinators and compute as far as the
    inventory's answers are known. *)
Ltac step :=
  unfold main, init, process_state, check_datastore_host_state,
    mount_san_datastore_host, umount_san_datastore_host,
    state_exit_unchanged, get_info_vmfs,
    try_except, bind, ret, raise, read, call, call_, query, index0,
    exit_json, fail_json in *;
  cbn [state esxi datastore_name esxi_hostname volume_device_name
       datastore_cluster_name fst snd app] in *.

Ltac answer H := rewrite ?H in *; step.

(** C8. When the named ESXi host does not resolve, the run fails with
    [Failed to find ESXi hostname <name> ], a message that contains the
    host name, and no remote call at all has been issued: the world is
    untouched and the call trace is empty. *)
Theorem unresolved_host_fails_first (p : Params) (w : W) :
  find_hostsystem_by_name w (p_esxi_hostname p) = None ->
  main p w =
    (Exit (FailJson ("Failed to find ESXi hostname " ++
                     p_esxi_hostname p ++ " ")), w, []) /\
  str_in (p_esxi_hostname p)
         ("Failed to find ESXi hostname " ++ p_esxi_hostname p ++ " ") = true.
Proof.
  intros Hhost. split.
  - step. answer Hhost. reflexivity.
  - apply str_in_app.
Qed.

(** C7. With [state=absent], the host resolved and rescanned, and no
    datastore of the target name found, the run reports [changed=false]
    and its only remote call is the HBA rescan of the target host: no
    create, expand, unmount or remove call is issued. *)
Theorem absent_on_absent_is_noop (p : Params) (w w1 : W) (h : HostSystem) :
  p_state p = absent ->
  find_hostsystem_by_name w (p_esxi_hostname p) = Some h ->
  RescanAllHba w h = inr w1 ->
  find_datastore_by_name w1 (p_datastore_name p) = None ->
  main p w = (Exit (ExitJson false None), w1, [CRescanAllHba h]) /\
  forall c, In c [CRescanAllHba h] ->
            is_create c = false /\ is_expand c = false /\
            is_remove c = false /\ is_unmount c = false.
Proof.
  intros Hst Hhost Hscan Hfind. split.
  - step. answer Hhost. answer Hscan. answer Hfind. answer Hst. reflexivity.
  - intros c [<-|[]]. repeat split.
Qed.

Lemma normalized_some (dev : string) :
  (if truthy (Some dev) then option_map lower (Some dev) else Some dev)
  = Some (lower dev).
Proof. destruct dev; reflexivity. Qed.

(** The first spec among the options that match is the spec of the first
    option whose extent disk name contains the device. *)
Lemma matching_specs_first (dev : string)
    (pre post : list (VmfsDatastoreOption VmfsDatastoreExpandSpec))
    (o : VmfsDatastoreOption VmfsDatastoreExpandSpec) :
  Forall (fun x => str_in dev (diskName (es_extent (spec x))) = false) pre ->
  str_in dev (diskName (es_extent (spec o))) = true ->
  exists rest, matching_specs dev (pre ++ o :: post) = spec o :: rest.
Proof.
  intros Hpre Ho. unfold matching_specs.
  induction Hpre as [|x pre Hx _ IH]; simpl.
  - rewrite Ho. simpl. eauto.
  - rewrite Hx. exact IH.
Qed.

(** C1 (amended). With [state=present], the datastore found and the
    lower-cased device among its extents' device identifiers, the run
    issues no create call: after the target host's HBA rescan it queries
    the expand options of the datastore.  When that query offers no
    option, nothing else is called and the run reports [changed=false]. *)
Theorem present_device_in_extents (p : Params) (w w1 : W) (h : HostSystem)
    (ds : Datastore) (vmfs : HostVmfsVolume) (dev : string) :
  p_state p = present ->
  find_hostsystem_by_name w (p_esxi_hostname p) = Some h ->
  RescanAllHba w h = inr w1 ->
  find_datastore_by_name w1 (p_datastore_name p) = Some ds ->
  info_vmfs ds = Some vmfs ->
  p_volume_device_name p = Some dev ->
  list_in (lower dev) (existing_wwns vmfs) = true ->
  (exists rest,
     snd (main p w)
       = [CRescanAllHba h; CQueryVmfsDatastoreExpandOptions h ds] ++ rest /\
     Forall (fun c => is_create c = false) rest)%list /\
  (QueryVmfsDatastoreExpandOptions w1 h ds = inr [] ->
   main p w = (Exit (ExitJson false None), w1,
               [CRescanAllHba h; CQueryVmfsDatastoreExpandOptions h ds])).
Proof.
  intros Hst Hhost Hscan Hfind Hvmfs Hdev Hin. split.
  - step. answer Hhost. answer Hscan. answer Hfind. answer Hst.
    answer Hvmfs. rewrite Hdev, normalized_some. rewrite Hin.
    destruct (QueryVmfsDatastoreExpandOptions w1 h ds) as [e|opts]; step.
    + destruct (mount_fault (exn_class e)); cbn; eexists; split;
        [reflexivity|constructor| reflexivity|constructor].
    + destruct opts as [|o opts]; cbn.
      * eexists; split; [reflexivity|constructor].
      * destruct (matching_specs (lower (lower dev)) (o :: opts))
          as [|s1 ss]; cbn.
        -- eexists; split; [reflexivity|constructor].
        -- destruct (ExpandVmfsDatastore w1 h ds s1) as [e|w2]; cbn.
           ++ destruct (mount_fault (exn_class e)); cbn; eexists; split;
                try reflexivity; repeat constructor.
           ++ eexists; split; [reflexivity|repeat constructor].
  - intros Hq. step. answer Hhost. answer Hscan. answer Hfind. answer Hst.
    answer Hvmfs. rewrite Hdev, normalized_some. rewrite Hin.
    rewrite Hq. reflexivity.
Qed.

(** C2 (amended). With [state=present], the datastore found, the
    lower-cased device among its extents' device identifiers, and the
    expand-options query returning an option whose extent disk name
    contains the device, the run issues one expand call, with the spec
    of the first such option, and, the expand answering, reports
    [changed=true]. *)
Theorem present_device_in_extents_expands (p : Params) (w w1 w2 : W)
    (h : HostSystem) (ds : Datastore) (vmfs : HostVmfsVolume) (dev : string)
    (pre post : list (VmfsDatastoreOption VmfsDatastoreExpandSpec))
    (o : VmfsDatastoreOption VmfsDatastoreExpandSpec) :
  p_state p = present ->
  find_hostsystem_by_name w (p_esxi_hostname p) = Some h ->
  RescanAllHba w h = inr w1 ->
  find_datastore_by_name w1 (p_datastore_name p) = Some ds ->
  info_vmfs ds = Some vmfs ->
  p_volume_device_name p = Some dev ->
  list_in (lower dev) (existing_wwns vmfs) = true ->
  QueryVmfsDatastoreExpandOptions w1 h ds = inr (pre ++ o :: post)%list ->
  Forall (fun x => str_in (lower dev) (diskName (es_extent (spec x))) = false)
         pre ->
  str_in (lower dev) (diskName (es_extent (spec o))) = true ->
  ExpandVmfsDatastore w1 h ds (spec o) = inr w2 ->
  main p w =
    (Exit (ExitJson true (Some ("Expanded storage on datastore " ++
                                p_datastore_name p))),
     w2,
     [CRescanAllHba h; CQueryVmfsDatastoreExpandOptions h ds;
      CExpandVmfsDatastore h ds (spec o)]) /\
  List.length
    (filter is_expand
       [CRescanAllHba h; CQueryVmfsDatastoreExpandOptions h ds;
        CExpandVmfsDatastore h ds (spec o)]) = 1.
Proof.
  intros Hst Hhost Hscan Hfind Hvmfs Hdev Hin Hq Hpre Ho Hexp.
  split; [|reflexivity].
  destruct (matching_specs_first (lower dev) pre post o Hpre Ho) as [rest Hm].
  step. answer Hhost. answer Hscan. answer Hfind. answer Hst.
  answer Hvmfs. rewrite Hdev, normalized_some. rewrite Hin, Hq.
  rewrite lower_idem, Hm.
  replace (0 <? List.length (pre ++ o :: post)%list)%nat with true.
  - cbn. rewrite Hexp. reflexivity.
  - symmetry. apply Nat.ltb_lt. rewrite length_app. simpl. lia.
Qed.

Lemma for_each_cons {A} (x : A) (l : list A) (body : A -> M W unit) (w : W) :
  for_each (x :: l) body w =
  match body x w with
  | (Ret _, w1, t1) =>
      let '(r, w2, t2) := for_each l body w1 in (r, w2, (t1 ++ t2)%list)
  | (Raise e, w1, t1) => (Raise e, w1, t1)
  | (Exit j, w1, t1) => (Exit j, w1, t1)
  end.
Proof. reflexivity. Qed.

(** The sibling-rescan loop ends normally only after it has rescanned
    every host of the list other than the target, HBA first, then VMFS. *)
Lemma rescan_loop (target : string) (l : list HostSystem) :
  forall (w w' : W) (r : Res Json unit) (t : list Call),
    for_each l (fun h =>
      if negb (String.eqb (h_name h) target)
      then bind (call_ (CRescanAllHba h) (fun w => RescanAllHba w h))
                (fun _ => call_ (CRescanVmfs h) (fun w => RescanVmfs w h))
      else ret tt) w = (r, w', t) ->
    (r = Ret tt /\ t = sibling_rescans target l) \/ (exists e, r = Raise e).
Proof.
  induction l as [|x l IH]; intros w w' r t H.
  - left. cbv in H. inversion H. split; reflexivity.
  - rewrite for_each_cons in H. unfold sibling_rescans. cbn [filter].
    destruct (negb (String.eqb (h_name x) target)).
    + unfold bind, call_ in H.
      destruct (RescanAllHba w x) as [e|wa];
        [right; exists e; inversion H; reflexivity|].
      destruct (RescanVmfs wa x) as [e|wb];
        [right; exists e; inversion H; reflexivity|].
      match type of H with
      | context [for_each l ?b wb] =>
          destruct (for_each l b wb) as [[r0 w0] t0] eqn:E
      end.
      inversion H; subst. destruct (IH _ _ _ _ E) as [[-> ->]|[e ->]].
      * left. split; reflexivity.
      * right. eauto.
    + unfold ret in H.
      match type of H with
      | context [for_each l ?b w] =>
          destruct (for_each l b w) as [[r0 w0] t0] eqn:E
      end.
      inversion H; subst. destruct (IH _ _ _ _ E) as [[-> ->]|[e ->]].
      * left. split; reflexivity.
      * right. eauto.
Qed.

(** Every way the handlers of [mount_san_datastore_host] end is a
    failure. *)
Ltac failed H :=
  solve [ repeat match type of H with
                 | context [if ?b then _ else _] => destruct b
                 end; cbn in H; discriminate H ].

(** Run the sibling-rescan loop met in [H] to its normal end. *)
Ltac loop H :=
  match type of H with
  | context [for_each ?l ?b ?wm] =>
      let El := fresh "El" in
      destruct (for_each l b wm) as [[?r0 ?w0] ?t0] eqn:El;
      destruct (rescan_loop _ _ _ _ _ _ El) as [[-> ->]|[? ->]];
      cbn in H; [|failed H]
  end.

(** The create path, when it ends in [exit_json]: the trace is the
    target's HBA rescan, the create-options query on the device path,
    one create with the first option's spec renamed, the folder move when
    a datastore cluster is named, then the sibling rescans. *)
Lemma create_path (p : Params) (w w1 w' : W) (h : HostSystem)
    (c : bool) (r : option string) (t : list Call) :
  p_state p = present ->
  find_hostsystem_by_name w (p_esxi_hostname p) = Some h ->
  RescanAllHba w h = inr w1 ->
  find_datastore_by_name w1 (p_datastore_name p) = None ->
  main p w = (Exit (ExitJson c r), w', t) ->
  c = true /\
  exists o os ds wc wm mid,
    QueryVmfsDatastoreCreateOptions
      w1 h ("/vmfs/devices/disks/naa." ++ str (device_of p)) = inr (o :: os) /\
    CreateVmfsDatastore w1 h (set_volumeName (spec o) (p_datastore_name p))
      = inr (ds, wc) /\
    ((mid = [] /\ wm = wc) \/
     (exists tgt src task wt sr,
        MoveIntoFolder_Task wc tgt [src] = inr (task, wt) /\
        wait_for_task wt task = inr (sr, wm) /\
        mid = [CMoveIntoFolder_Task tgt [src]; CWaitForTask task])) /\
    t = ([CRescanAllHba h;
          CQueryVmfsDatastoreCreateOptions
            h ("/vmfs/devices/disks/naa." ++ str (device_of p));
          CCreateVmfsDatastore
            h (set_volumeName (spec o) (p_datastore_name p))]
         ++ mid
         ++ sibling_rescans (p_esxi_hostname p)
              (get_all_hosts_by_cluster wm (h_parent_name h)))%list.
Proof.
  intros Hst Hhost Hscan Hfind H.
  step. answer Hhost. answer Hscan. answer Hfind. answer Hst.
  unfold ds_path, device_of in *.
  cbn [volume_device_name] in H.
  destruct (QueryVmfsDatastoreCreateOptions w1 h _) as [e|[|o os]] eqn:Eq;
    cbn in H; try failed H.
  destruct (CreateVmfsDatastore w1 h _) as [e|[ds wc]] eqn:Ec;
    cbn in H; try failed H.
  destruct (p_datastore_cluster_name p) as [[|ch cs]|] eqn:Ecl; cbn in H.
  - loop H. inversion H; subst. split; [reflexivity|].
    exists o, os, ds, wc, wc, []. repeat split; try assumption.
    + left. split; reflexivity.
    + cbn. rewrite ?app_nil_r. reflexivity.
  - unfold move_into_cluster in H. step.
    do 3 (match type of H with
          | context [match filter ?f ?l with _ => _ end] =>
              destruct (filter f l) as [|? ?]; step; cbn in H; try failed H
          end).
    match type of H with
    | context [MoveIntoFolder_Task wc ?tgt ?src] =>
        destruct (MoveIntoFolder_Task wc tgt src) as [?|[task wt]] eqn:Em;
        cbn in H; try failed H
    end.
    destruct (wait_for_task wt task) as [?|[sr wm]] eqn:Ew;
      cbn in H; try failed H.
    loop H. inversion H; subst. split; [reflexivity|].
    exists o, os, ds, wc, wm, [CMoveIntoFolder_Task m0 [m]; CWaitForTask task].
    repeat split; try assumption.
    + right. exists m0, m, task, wt, sr. repeat split; assumption.
    + cbn. rewrite ?app_nil_r. reflexivity.
  - loop H. inversion H; subst. split; [reflexivity|].
    exists o, os, ds, wc, wc, []. repeat split; try assumption.
    + left. split; reflexivity.
    + cbn. rewrite ?app_nil_r. reflexivity.
Qed.


Lemma sibling_rescans_cover (target : string) (l : list HostSystem)
    (x : HostSystem) :
  In x l -> h_name x <> target ->
  exists a b,
    sibling_rescans target l = (a ++ [CRescanAllHba x; CRescanVmfs x] ++ b)%list.
Proof.
  unfold sibling_rescans. intros Hin Hne.
  induction l as [|y l IH]; [contradiction|].
  destruct Hin as [->|Hin].
  - cbn [filter]. destruct (String.eqb_spec (h_name x) target) as [E|_];
      [contradiction|].
    cbn. exists [], (flat_map (fun h => [CRescanAllHba h; CRescanVmfs h])
      (filter (fun h => negb (String.eqb (h_name h) target)) l)).
    reflexivity.
  - destruct (IH Hin) as (a & b & E). cbn [filter].
    destruct (negb (String.eqb (h_name y) target)).
    + cbn. rewrite E. exists (CRescanAllHba y :: CRescanVmfs y :: a), b.
      reflexivity.
    + exists a, b. exact E.
Qed.

Lemma bind_query_first {A B} (c : Call) (op : W -> Exn + A)
    (k : A -> M W B) (w : W) :
  exists r w' rest, bind (query c op) k w = (r, w', c :: rest).
Proof.
  unfold bind, query. destruct (op w) as [e|a]; [eauto|].
  destruct (k a w) as [[r w'] t]. cbn. eauto.
Qed.

Lemma try_except_first {A} (m : M W A) (hd : Exn -> M W A) (w w' : W)
    (r : Res Json A) (c : Call) (rest : list Call) :
  m w = (r, w', c :: rest) ->
  exists r2 w2 rest2, try_except m hd w = (r2, w2, c :: rest2).
Proof.
  intros H. unfold try_except. rewrite H. destruct r; eauto.
  destruct (hd e w') as [[r2 w2] t2]. cbn. eauto.
Qed.

(** The create path first queries the create options on the device path,
    whatever follows. *)
Lemma mount_absent_queries (self : Self) (w1 : W) :
  exists r w' rest,
    mount_san_datastore_host self None w1 =
    (r, w', CQueryVmfsDatastoreCreateOptions (esxi self) (ds_path self)
            :: rest).
Proof.
  unfold mount_san_datastore_host.
  match goal with
  | |- context [try_except (bind (query ?c ?op) ?k) ?hd] =>
      destruct (bind_query_first c op k w1) as (r & w' & rest & E);
      exact (try_except_first _ hd _ _ _ _ _ E)
  end.
Qed.

(** Once the host has resolved and rescanned, [main] is the handler of
    the desired state run on what the lookup found, after the rescan. *)
Lemma main_dispatch (p : Params) (w w1 w' : W) (h : HostSystem)
    (r : Res Json unit) (t : list Call) :
  find_hostsystem_by_name w (p_esxi_hostname p) = Some h ->
  RescanAllHba w h = inr w1 ->
  match p_state p with
  | present =>
      mount_san_datastore_host
        (self_of p h) (find_datastore_by_name w1 (p_datastore_name p))
  | absent =>
      umount_san_datastore_host
        (self_of p h) (find_datastore_by_name w1 (p_datastore_name p))
  end w1 = (r, w', t) ->
  exists r2,
    main p w = (r2, w', CRescanAllHba h :: t) /\
    (forall j, r = Exit j -> r2 = Exit j) /\
    (forall c res, r2 = Exit (ExitJson c res) -> r = Exit (ExitJson c res)).
Proof.
  intros Hhost Hscan Hrun.
  unfold main, init, process_state, check_datastore_host_state,
    try_except, bind, read, call_, ret, fail_json.
  rewrite Hhost. cbn [esxi datastore_name state].
  rewrite Hscan. fold (self_of p h). cbn [app]. rewrite Hrun.
  destruct r as [a|e|j]; cbn.
  - eexists; split; [reflexivity|split; discriminate].
  - destruct (vmodl_fault (exn_class e)); cbn; rewrite app_nil_r;
      eexists; (split; [reflexivity|split; discriminate]).
  - eexists; split; [reflexivity|]. split; intros; assumption.
Qed.

(** C10. With [state=present], no datastore of the target name and
    [volume_device_name] omitted, nothing rejects the missing parameter:
    after the target host's HBA rescan the run queries the create options
    against [/vmfs/devices/disks/naa.None].  A fault of that query, or an
    empty answer, ends the run as a mount failure ([Cannot mount datastore
    ... on host ... : ...]) carrying the fault's text. *)
Theorem omitted_device_reaches_the_query (p : Params) (w w1 : W)
    (h : HostSystem) :
  p_state p = present ->
  find_hostsystem_by_name w (p_esxi_hostname p) = Some h ->
  RescanAllHba w h = inr w1 ->
  find_datastore_by_name w1 (p_datastore_name p) = None ->
  p_volume_device_name p = None ->
  (exists rest,
     snd (main p w) =
     CRescanAllHba h
     :: CQueryVmfsDatastoreCreateOptions h "/vmfs/devices/disks/naa.None"
     :: rest) /\
  (forall e,
     QueryVmfsDatastoreCreateOptions w1 h "/vmfs/devices/disks/naa.None"
       = inl e ->
     main p w =
     (Exit (FailJson ("Cannot mount datastore " ++ p_datastore_name p ++
                      " on host " ++ p_esxi_hostname p ++ " : " ++
                      (if mount_fault (exn_class e)
                       then fault_msg e else exn_str e))),
      w1,
      [CRescanAllHba h;
       CQueryVmfsDatastoreCreateOptions h "/vmfs/devices/disks/naa.None"])) /\
  (QueryVmfsDatastoreCreateOptions w1 h "/vmfs/devices/disks/naa.None"
     = inr [] ->
   main p w =
   (Exit (FailJson ("Cannot mount datastore " ++ p_datastore_name p ++
                    " on host " ++ p_esxi_hostname p ++
                    " : list index out of range")),
    w1,
    [CRescanAllHba h;
     CQueryVmfsDatastoreCreateOptions h "/vmfs/devices/disks/naa.None"])).
Proof.
  intros Hst Hhost Hscan Hfind Hdev.
  assert (Hpath : ds_path (self_of p h) = "/vmfs/devices/disks/naa.None").
  { unfold ds_path, self_of. cbn [volume_device_name]. rewrite Hdev.
    reflexivity. }
  split; [|split].
  - destruct (mount_absent_queries (self_of p h) w1) as (r & w' & rest & E).
    rewrite Hpath in E. cbn [esxi self_of] in E.
    edestruct (main_dispatch p w w1 w' h r) as (r2 & E2 & _ & _);
      [exact Hhost|exact Hscan|rewrite Hst, Hfind; exact E|].
    rewrite E2. cbn. eauto.
  - intros e Hq. step. answer Hhost. answer Hscan. answer Hfind. answer Hst.
    unfold ds_path, error_message_mount.
    cbn [volume_device_name datastore_name esxi_hostname].
    rewrite Hdev. cbn [truthy str].
    change ("/vmfs/devices/disks/naa." ++ "None")
      with "/vmfs/devices/disks/naa.None".
    rewrite Hq.
    destruct (mount_fault (exn_class e)); cbn; rewrite !append_assoc;
      reflexivity.
  - intros Hq. step. answer Hhost. answer Hscan. answer Hfind. answer Hst.
    unfold ds_path, error_message_mount.
    cbn [volume_device_name datastore_name esxi_hostname].
    rewrite Hdev. cbn [truthy str].
    change ("/vmfs/devices/disks/naa." ++ "None")
      with "/vmfs/devices/disks/naa.None".
    rewrite Hq. cbn. rewrite !append_assoc. reflexivity.
Qed.


(** C4 (amended). When a [state=present] run that found no datastore ends
    in [exit_json], the create call has answered and, after it (and after
    the folder move when a datastore cluster is named), every host of the
    target host's parent cluster whose name is not the target's has been
    issued an HBA rescan immediately followed by a VMFS rescan; these
    rescans close the trace. *)
Theorem create_rescans_siblings (p : Params) (w w1 w' : W) (h : HostSystem)
    (c : bool) (r : option string) (t : list Call) :
  p_state p = present ->
  find_hostsystem_by_name w (p_esxi_hostname p) = Some h ->
  RescanAllHba w h = inr w1 ->
  find_datastore_by_name w1 (p_datastore_name p) = None ->
  main p w = (Exit (ExitJson c r), w', t) ->
  exists s ds wc wm front,
    CreateVmfsDatastore w1 h s = inr (ds, wc) /\
    In (CCreateVmfsDatastore h s) front /\
    ((wm = wc) \/
     (exists tgt src task wt sr,
        MoveIntoFolder_Task wc tgt [src] = inr (task, wt) /\
        wait_for_task wt task = inr (sr, wm))) /\
    t = (front ++ sibling_rescans (p_esxi_hostname p)
                    (get_all_hosts_by_cluster wm (h_parent_name h)))%list /\
    forall x,
      In x (get_all_hosts_by_cluster wm (h_parent_name h)) ->
      h_name x <> p_esxi_hostname p ->
      exists a b,
        t = ((front ++ a) ++ [CRescanAllHba x; CRescanVmfs x] ++ b)%list.
Proof.
  intros Hst Hhost Hscan Hfind H.
  destruct (create_path p w w1 w' h c r t Hst Hhost Hscan Hfind H)
    as (_ & o & os & ds & wc & wm & mid & Hq & Hc & Hmid & Ht).
  exists (set_volumeName (spec o) (p_datastore_name p)), ds, wc, wm.
  exists ([CRescanAllHba h;
           CQueryVmfsDatastoreCreateOptions
             h ("/vmfs/devices/disks/naa." ++ str (device_of p));
           CCreateVmfsDatastore
             h (set_volumeName (spec o) (p_datastore_name p))] ++ mid)%list.
  split; [exact Hc|]. split; [|split; [|split]].
  - apply in_or_app. left. right. right. left. reflexivity.
  - destruct Hmid as [[_ ->]|(tgt & src & task & wt & sr & Hm & Hw & _)].
    + left. reflexivity.
    + right. exists tgt, src, task, wt, sr. split; assumption.
  - rewrite Ht. rewrite <- app_assoc. reflexivity.
  - intros x Hin Hne.
    destruct (sibling_rescans_cover _ _ x Hin Hne) as (a & b & E).
    exists a, b. rewrite Ht, E. rewrite <- !app_assoc. reflexivity.
Qed.

(** One turn of the unmount loop on a VMFS datastore. *)
Lemma unmount_body (ds : Datastore) (vmfs : HostVmfsVolume)
    (m : DatastoreHostMount) :
  info_vmfs ds = Some vmfs ->
  forall w : W,
    bind (get_info_vmfs ds) (fun v =>
      call_ (CUnmountVmfsVolume (key m) (uuid v))
            (fun w => UnmountVmfsVolume w (key m) (uuid v))) w
    = match UnmountVmfsVolume w (key m) (uuid vmfs) with
      | inl e => (Raise e, w, [CUnmountVmfsVolume (key m) (uuid vmfs)])
      | inr w' => (Ret tt, w', [CUnmountVmfsVolume (key m) (uuid vmfs)])
      end.
Proof.
  intros Hv w. unfold bind, get_info_vmfs, call_, ret. rewrite Hv.
  destruct (UnmountVmfsVolume w (key m) (uuid vmfs)); reflexivity.
Qed.

(** The unmount loop over the mounting hosts, all unmounts answering. *)
Lemma unmount_loop_ok (ds : Datastore) (vmfs : HostVmfsVolume)
    (l : list DatastoreHostMount) :
  info_vmfs ds = Some vmfs ->
  forall w w' : W,
    unmount_all w l (uuid vmfs) = inr w' ->
    for_each l (fun m =>
      bind (get_info_vmfs ds) (fun v =>
        call_ (CUnmountVmfsVolume (key m) (uuid v))
              (fun w => UnmountVmfsVolume w (key m) (uuid v)))) w
    = (Ret tt, w', unmount_calls (uuid vmfs) l).
Proof.
  intros Hv. induction l as [|m l IH]; intros w w' H.
  - inversion H. reflexivity.
  - cbn [unmount_all] in H.
    destruct (UnmountVmfsVolume w (key m) (uuid vmfs)) as [e|wa] eqn:Hu;
      [discriminate|].
    rewrite for_each_cons, (unmount_body ds vmfs m Hv w), Hu.
    rewrite (IH _ _ H). reflexivity.
Qed.

(** The unmount loop stops at the first host whose unmount faults. *)
Lemma unmount_loop_fault (ds : Datastore) (vmfs : HostVmfsVolume)
    (pre post : list DatastoreHostMount) (hi : DatastoreHostMount) (e : Exn) :
  info_vmfs ds = Some vmfs ->
  forall w wi : W,
    unmount_all w pre (uuid vmfs) = inr wi ->
    UnmountVmfsVolume wi (key hi) (uuid vmfs) = inl e ->
    for_each (pre ++ hi :: post)%list (fun m =>
      bind (get_info_vmfs ds) (fun v =>
        call_ (CUnmountVmfsVolume (key m) (uuid v))
              (fun w => UnmountVmfsVolume w (key m) (uuid v)))) w
    = (Raise e, wi,
       (unmount_calls (uuid vmfs) pre
        ++ [CUnmountVmfsVolume (key hi) (uuid vmfs)])%list).
Proof.
  intros Hv. induction pre as [|m pre IH]; intros w wi H He.
  - inversion H; subst. cbn [app].
    rewrite for_each_cons, (unmount_body ds vmfs hi Hv wi), He.
    reflexivity.
  - cbn [app]. cbn [unmount_all] in H.
    destruct (UnmountVmfsVolume w (key m) (uuid vmfs)) as [e0|wa] eqn:Hu;
      [discriminate|].
    rewrite for_each_cons, (unmount_body ds vmfs m Hv w), Hu.
    rewrite (IH _ _ H He). reflexivity.
Qed.

(** C5 (amended). With [state=absent] and the (VMFS) datastore found: when
    every mounting host's unmount answers, the trace is the target's HBA
    rescan, one unmount by VMFS UUID per mounting host, in order, and
    only then the removal on the target host, and the run reports
    [changed=true].  When the unmount faults on a host, no further
    unmount and no removal is issued, and the run fails with
    [Cannot umount datastore <datastore_name> from host <esxi_hostname>:
    <fault text>]: the message names the target host of the run. *)
Theorem removal_unmounts_first (p : Params) (w w1 : W) (h : HostSystem)
    (ds : Datastore) (vmfs : HostVmfsVolume) :
  p_state p = absent ->
  find_hostsystem_by_name w (p_esxi_hostname p) = Some h ->
  RescanAllHba w h = inr w1 ->
  find_datastore_by_name w1 (p_datastore_name p) = Some ds ->
  info_vmfs ds = Some vmfs ->
  (forall w2 w3,
     unmount_all w1 (host ds) (uuid vmfs) = inr w2 ->
     RemoveDatastore w2 h ds = inr w3 ->
     main p w =
     (Exit (ExitJson true (Some ("Datastore " ++ p_datastore_name p ++
                                 " on host " ++ p_esxi_hostname p))),
      w3,
      ([CRescanAllHba h] ++ unmount_calls (uuid vmfs) (host ds)
       ++ [CRemoveDatastore h ds])%list)) /\
  (forall pre hi post wi e,
     host ds = (pre ++ hi :: post)%list ->
     unmount_all w1 pre (uuid vmfs) = inr wi ->
     UnmountVmfsVolume wi (key hi) (uuid vmfs) = inl e ->
     main p w =
     (Exit (FailJson ("Cannot umount datastore " ++ p_datastore_name p ++
                      " from host " ++ p_esxi_hostname p ++ ": " ++
                      (if umount_fault (exn_class e)
                       then fault_msg e else exn_str e))),
      wi,
      ([CRescanAllHba h] ++ unmount_calls (uuid vmfs) pre
       ++ [CUnmountVmfsVolume (key hi) (uuid vmfs)])%list) /\
     Forall (fun c => is_remove c = false)
       ([CRescanAllHba h] ++ unmount_calls (uuid vmfs) pre
        ++ [CUnmountVmfsVolume (key hi) (uuid vmfs)])%list).
Proof.
  intros Hst Hhost Hscan Hfind Hv. split.
  - intros w2 w3 Hall Hrm.
    edestruct (main_dispatch p w w1 w3 h) as (r2 & E & Hex & _);
      [exact Hhost|exact Hscan| |].
    + rewrite Hst, Hfind. unfold umount_san_datastore_host.
      unfold try_except, bind at 1 2.
      rewrite (unmount_loop_ok ds vmfs (host ds) Hv w1 w2 Hall).
      unfold call_. cbn [esxi self_of]. rewrite Hrm.
      unfold exit_json. cbn [datastore_name esxi_hostname self_of].
      reflexivity.
    + rewrite E, (Hex _ eq_refl). cbn [app]. rewrite app_nil_r.
      reflexivity.
  - intros pre hi post wi e Hsplit Hall He. split.
    + assert (Hu : umount_san_datastore_host (self_of p h) (Some ds) w1 =
        (Exit (FailJson
                 (("Cannot umount datastore " ++ p_datastore_name p ++
                   " from host " ++ p_esxi_hostname p) ++ ": " ++
                  (if umount_fault (exn_class e)
                   then fault_msg e else exn_str e))),
         wi,
         ((unmount_calls (uuid vmfs) pre
           ++ [CUnmountVmfsVolume (key hi) (uuid vmfs)]) ++ [])%list)).
      { unfold umount_san_datastore_host.
        unfold try_except, bind at 1 2. rewrite Hsplit.
        rewrite (unmount_loop_fault ds vmfs pre post hi e Hv w1 wi Hall He).
        unfold error_message_umount, fail_json.
        cbn [datastore_name esxi_hostname self_of].
        destruct (umount_fault (exn_class e)); reflexivity. }
      edestruct (main_dispatch p w w1 wi h) as (r2 & E & Hex & _);
        [exact Hhost|exact Hscan|rewrite Hst, Hfind; exact Hu|].
      rewrite E, (Hex _ eq_refl). cbn [app]. rewrite ?app_nil_r.
      rewrite !append_assoc. reflexivity.
    + apply Forall_app. split; [repeat constructor|].
      apply Forall_app. split; [|repeat constructor].
      unfold unmount_calls. apply Forall_map, Forall_forall.
      intros; reflexivity.
Qed.

(** The unmount loop never calls [exit_json] or [fail_json] itself. *)
Lemma unmount_loop_shape (ds : Datastore) (l : list DatastoreHostMount) :
  forall (w w' : W) (r : Res Json unit) (t : list Call),
    for_each l (fun m =>
      bind (get_info_vmfs ds) (fun v =>
        call_ (CUnmountVmfsVolume (key m) (uuid v))
              (fun w => UnmountVmfsVolume w (key m) (uuid v)))) w
    = (r, w', t) ->
    r = Ret tt \/ exists e, r = Raise e.
Proof.
  induction l as [|m l IH]; intros w w' r t H.
  - inversion H. left. reflexivity.
  - rewrite for_each_cons in H.
    destruct (info_vmfs ds) as [vmfs|] eqn:Hv.
    + rewrite (unmount_body ds vmfs m Hv w) in H.
      destruct (UnmountVmfsVolume w (key m) (uuid vmfs)) as [e|wa].
      * inversion H. right. eauto.
      * match type of H with
        | context [for_each l ?b wa] =>
            destruct (for_each l b wa) as [[r0 w0] t0] eqn:El
        end.
        inversion H; subst. exact (IH _ _ _ _ El).
    + unfold bind, get_info_vmfs, raise in H. rewrite Hv in H.
      inversion H. right. eauto.
Qed.





End Reconciliation.

(** ** The facts path *)

Section FactsPath.
Import Py Vim Ansible Props vmware_datastore_san_facts.
Context {W : Type} {api : InventoryApi W}.

Lemma read_datastore_describes (d : Datastore) (r : DatastoreFacts) :
  read_datastore (Some d) = Ret r -> describes d r.
Proof.
  unfold read_datastore, try_except, describes.
  destruct (info_vmfs d) as [vmfs|] eqn:Hv; cbn; [|discriminate].
  intros H. inversion H; subst; cbn. repeat split.
  exists vmfs. repeat split.
  clear H. generalize (extent vmfs). intros l.
  induction l as [|x l IH]; cbn; constructor; [|exact IH].
  apply split_dot_last_trailing.
Qed.

Lemma collect_describes (l : list Datastore) :
  forall rs,
    collect (fun d => read_datastore (Some d)) l = Ret rs ->
    Forall2 describes l rs.
Proof.
  induction l as [|d l IH]; cbn; intros rs H.
  - inversion H. constructor.
  - unfold bind in H.
    destruct (read_datastore (Some d)) as [r|e|j] eqn:Hr; try discriminate.
    destruct (collect (fun d0 => read_datastore (Some d0)) l)
      as [rs'|e|j]; try discriminate.
    inversion H; subst. constructor; [|apply IH; reflexivity].
    apply read_datastore_describes. exact Hr.
Qed.

Lemma gather_facts_describes (p : Params) (w : W) (rs : list DatastoreFacts) :
  gather_facts p w = Ret rs -> Forall2 describes (selected p w) rs.
Proof.
  unfold gather_facts, selected.
  destruct (p_datastore_name p) as [[|c cs]|].
  2: { unfold bind.
       destruct (find_datastore_by_name w (String c cs)) as [d|] eqn:Hf.
       - destruct (read_datastore (Some d)) as [r|e|j] eqn:Hr;
           try discriminate.
         intros H. inversion H; subst. constructor; [|constructor].
         apply read_datastore_describes. exact Hr.
       - destruct (read_datastore None) as [r|e|j] eqn:Hr; discriminate. }
  all: destruct (p_esxi_hostname p) as [[|c cs]|];
    try apply collect_describes;
    (destruct (find_hostsystem_by_name w (String c cs)) as [h|];
       [apply collect_describes|discriminate]).
Qed.

(** [read_datastore] exits only through [fail_json]. *)
Lemma read_datastore_exit (o : option Datastore) (j : FactsJson) :
  read_datastore o = Exit j -> exists msg, j = FailJson msg.
Proof.
  unfold read_datastore, try_except.
  destruct o as [d|]; cbn; [destruct (info_vmfs d); cbn|];
    intros H; inversion H; eauto.
Qed.

Lemma collect_exit (l : list Datastore) (j : FactsJson) :
  collect (fun d => read_datastore (Some d)) l = Exit j ->
  exists msg, j = FailJson msg.
Proof.
  induction l as [|d l IH]; cbn; [discriminate|]. unfold bind.
  destruct (read_datastore (Some d)) as [r|e|j'] eqn:Hr; try discriminate.
  - destruct (collect (fun d0 => read_datastore (Some d0)) l)
      as [rs'|e|j']; try discriminate.
    intros H. inversion H; subst. apply IH. reflexivity.
  - intros H. inversion H; subst. exact (read_datastore_exit _ _ Hr).
Qed.

Lemma gather_facts_exit (p : Params) (w : W) (j : FactsJson) :
  gather_facts p w = Exit j -> exists msg, j = FailJson msg.
Proof.
  unfold gather_facts.
  destruct (p_datastore_name p) as [[|c cs]|].
  2: { unfold bind.
       destruct (read_datastore (find_datastore_by_name w (String c cs)))
         as [r|e|j'] eqn:Hr; try discriminate.
       intros H. inversion H; subst. exact (read_datastore_exit _ _ Hr). }
  all: destruct (p_esxi_hostname p) as [[|c cs]|];
    try apply collect_exit;
    (destruct (find_hostsystem_by_name w (String c cs)) as [h|];
       [apply collect_exit|discriminate]).
Qed.

(** C9. Whenever the facts path ends in [exit_json], the output has
    [changed=false] and one record per reported datastore, in order,
    giving its summary name, maintenance mode and url, the name of its
    parent when that is a storage pod and ['N/A'] otherwise, the type of
    its VMFS volume, and as [wwn] the trailing dot-separated segment of
    each extent's disk name. *)
Theorem facts_output (HAS_PYVMOMI : bool) (p : Params) (w : W) (c : bool)
    (dss : list DatastoreFacts) :
  main HAS_PYVMOMI p w = Exit (ExitJson c dss) ->
  c = false /\ Forall2 describes (selected p w) dss.
Proof.
  unfold main, try_except.
  destruct HAS_PYVMOMI; cbn; [|discriminate].
  destruct (connect_to_api w) as [e|[]]; [discriminate|].
  unfold bind.
  destruct (gather_facts p w) as [rs|e|j] eqn:Hg; try discriminate.
  - intros H. inversion H; subst. split; [reflexivity|].
    apply gather_facts_describes. exact Hg.
  - intros H. inversion H; subst.
    destruct (gather_facts_exit _ _ _ Hg) as [msg Hm]. discriminate Hm.
Qed.

End FactsPath.

(** ** The theorems at work on the simulated inventory *)

Section Scenarios.
Import Py Vim Ansible Props Lab.
Import vmware_host_datastore_san.

Lemma unresolved_host_fails_first_witness :
  main (params_on "H9" None absent) settled_world =
    (Exit (FailJson "Failed to find ESXi hostname H9 "), settled_world, []) /\
  str_in "H9" "Failed to find ESXi hostname H9 " = true.
Proof.
  apply (unresolved_host_fails_first (params_on "H9" None absent)
                                     settled_world).
  reflexivity.
Defined.

Lemma absent_on_absent_is_noop_witness :
  main (params None absent) empty_world =
    (Exit (ExitJson false None), empty_world, [CRescanAllHba H1]) /\
  forall c, In c [CRescanAllHba H1] ->
            is_create c = false /\ is_expand c = false /\
            is_remove c = false /\ is_unmount c = false.
Proof.
  apply (absent_on_absent_is_noop (params None absent) empty_world
                                  empty_world H1); reflexivity.
Defined.

Lemma present_device_in_extents_witness :
  (exists rest,
     snd (main (params (Some device) present) settled_world)
       = [CRescanAllHba H1; CQueryVmfsDatastoreExpandOptions H1 SAN_DS01]
         ++ rest /\
     Forall (fun c => is_create c = false) rest)%list /\
  (QueryVmfsDatastoreExpandOptions settled_world H1 SAN_DS01 = inr [] ->
   main (params (Some device) present) settled_world =
     (Exit (ExitJson false None), settled_world,
      [CRescanAllHba H1; CQueryVmfsDatastoreExpandOptions H1 SAN_DS01])).
Proof.
  apply (present_device_in_extents (params (Some device) present)
           settled_world settled_world H1 SAN_DS01 SAN_DS01_vmfs device);
    reflexivity.
Defined.

Lemma present_device_in_extents_expands_witness :
  main (params (Some device) present) grown_world =
    (Exit (ExitJson true (Some "Expanded storage on datastore SAN_DS01")),
     settled_world,
     [CRescanAllHba H1; CQueryVmfsDatastoreExpandOptions H1 SAN_DS01;
      CExpandVmfsDatastore H1 SAN_DS01 (spec (expand_option disk 2048))]) /\
  List.length
    (filter is_expand
       [CRescanAllHba H1; CQueryVmfsDatastoreExpandOptions H1 SAN_DS01;
        CExpandVmfsDatastore H1 SAN_DS01 (spec (expand_option disk 2048))])
  = 1.
Proof.
  apply (present_device_in_extents_expands
           (params (Some device) present) grown_world grown_world
           settled_world H1 SAN_DS01 SAN_DS01_vmfs device
           [expand_option other_disk 1024] [expand_option disk 4096]
           (expand_option disk 2048));
    try reflexivity.
  repeat constructor.
Defined.


Lemma create_rescans_siblings_witness :
  exists s ds wc wm front,
    CreateVmfsDatastore empty_world H1 s = inr (ds, wc) /\
    In (CCreateVmfsDatastore H1 s) front /\
    ((wm = wc) \/
     (exists tgt src task wt sr,
        MoveIntoFolder_Task wc tgt [src] = inr (task, wt) /\
        wait_for_task wt task = inr (sr, wm))) /\
    snd (main (params (Some device) present) empty_world) =
      (front ++ sibling_rescans "H1"
                  (get_all_hosts_by_cluster wm "ClusterA"))%list /\
    forall x,
      In x (get_all_hosts_by_cluster wm "ClusterA") ->
      h_name x <> "H1" ->
      exists a b,
        snd (main (params (Some device) present) empty_world) =
          ((front ++ a) ++ [CRescanAllHba x; CRescanVmfs x] ++ b)%list.
Proof.
  apply (create_rescans_siblings (params (Some device) present)
           empty_world empty_world
           (with_datastores empty_world [created_SAN_DS01]) H1
           true (Some "Datastore SAN_DS01 on host H1"));
    reflexivity.
Defined.

Lemma removal_unmounts_first_witness :
  main (params None absent) busy_world =
    (Exit (FailJson
             ("Cannot umount datastore SAN_DS01 from host H1: " ++
              "The resource is in use.")),
     with_datastores busy_world [drop_mount H1 SAN_DS01; LOCAL_DS],
     [CRescanAllHba H1; CUnmountVmfsVolume H1 "5f3c-0001";
      CUnmountVmfsVolume H2 "5f3c-0001"]) /\
  Forall (fun c => is_remove c = false)
    [CRescanAllHba H1; CUnmountVmfsVolume H1 "5f3c-0001";
     CUnmountVmfsVolume H2 "5f3c-0001"].
Proof.
  destruct (removal_unmounts_first (params None absent)
              busy_world busy_world H1 SAN_DS01 SAN_DS01_vmfs)
    as [_ Hfault]; [reflexivity ..|].
  apply (Hfault [ {| key := H1 |} ] {| key := H2 |} []
           (with_datastores busy_world [drop_mount H1 SAN_DS01; LOCAL_DS])
           {| exn_class := ResourceInUse;
              fault_msg := "The resource is in use.";
              exn_str := "(vim.fault.ResourceInUse)" |});
    reflexivity.
Defined.

Lemma omitted_device_reaches_the_query_witness :
  (exists rest,
     snd (main (params None present) empty_world) =
     CRescanAllHba H1
     :: CQueryVmfsDatastoreCreateOptions H1 "/vmfs/devices/disks/naa.None"
     :: rest) /\
  (forall e,
     QueryVmfsDatastoreCreateOptions
       empty_world H1 "/vmfs/devices/disks/naa.None" = inl e ->
     main (params None present) empty_world =
     (Exit (FailJson ("Cannot mount datastore " ++ "SAN_DS01" ++
                      " on host " ++ "H1" ++ " : " ++
                      (if mount_fault (exn_class e)
                       then fault_msg e else exn_str e))),
      empty_world,
      [CRescanAllHba H1;
       CQueryVmfsDatastoreCreateOptions H1 "/vmfs/devices/disks/naa.None"])) /\
  (QueryVmfsDatastoreCreateOptions
     empty_world H1 "/vmfs/devices/disks/naa.None" = inr [] ->
   main (params None present) empty_world =
   (Exit (FailJson ("Cannot mount datastore " ++ "SAN_DS01" ++
                    " on host " ++ "H1" ++
                    " : list index out of range")),
    empty_world,
    [CRescanAllHba H1;
     CQueryVmfsDatastoreCreateOptions H1 "/vmfs/devices/disks/naa.None"])).
Proof.
  apply (omitted_device_reaches_the_query (params None present)
           empty_world empty_world H1); reflexivity.
Defined.

Lemma facts_output_witness :
  false = false /\
  Forall2 describes
    (selected {| vmware_datastore_san_facts.p_datastore_name := None;
                 vmware_datastore_san_facts.p_esxi_hostname := Some "H1" |}
              settled_world)
    [ {| vmware_datastore_san_facts.name := "SAN_DS01";
         vmware_datastore_san_facts.maintenanceMode := "normal";
         vmware_datastore_san_facts.url := "ds:///vmfs/volumes/5f3c-0001";
         vmware_datastore_san_facts.datastore_cluster := "Pod1";
         vmware_datastore_san_facts.vmfs_type := "VMFS";
         vmware_datastore_san_facts.wwn :=
           ["600508b400105e210000900000490000"] |};
      {| vmware_datastore_san_facts.name := "LOCAL_DS";
         vmware_datastore_san_facts.maintenanceMode := "normal";
         vmware_datastore_san_facts.url := "ds:///vmfs/volumes/5f3c-0009";
         vmware_datastore_san_facts.datastore_cluster := "N/A";
         vmware_datastore_san_facts.vmfs_type := "VMFS";
         vmware_datastore_san_facts.wwn := ["vmhba0:C0:T0:L0"] |} ].
Proof.
  apply (facts_output true
           {| vmware_datastore_san_facts.p_datastore_name := None;
              vmware_datastore_san_facts.p_esxi_hostname := Some "H1" |}
           settled_world).
  reflexivity.
Defined.


(** *** Where the code departs from the specification *)

(** C1 as stated fails.  [SAN_DS01] exists, the lower-cased device is
    among its extents' identifiers, and the inventory offers expand
    options: the run expands the datastore and reports [changed=true]. *)
Lemma device_in_extents_still_expands :
  p_state (params (Some device) present) = present /\
  find_datastore_by_name grown_world "SAN_DS01" = Some SAN_DS01 /\
  list_in (lower device) (existing_wwns SAN_DS01_vmfs) = true /\
  main (params (Some device) present) grown_world =
    (Exit (ExitJson true (Some "Expanded storage on datastore SAN_DS01")),
     settled_world,
     [CRescanAllHba H1; CQueryVmfsDatastoreExpandOptions H1 SAN_DS01;
      CExpandVmfsDatastore H1 SAN_DS01 (spec (expand_option disk 2048))]).
Proof. repeat split. Qed.

(** C2 as stated fails.  [SAN_DS01] exists, the lower-cased device is not
    among its extents' identifiers, and the first expand option on offer
    is for that very device: the run does not even query the expand
    options; it issues no expand call and reports [changed=false]. *)
Lemma device_not_in_extents_never_expands :
  p_state (params (Some other_device) present) = present /\
  find_datastore_by_name grown_world "SAN_DS01" = Some SAN_DS01 /\
  list_in (lower other_device) (existing_wwns SAN_DS01_vmfs) = false /\
  QueryVmfsDatastoreExpandOptions grown_world H1 SAN_DS01 =
    inr [expand_option other_disk 1024; expand_option disk 2048;
         expand_option disk 4096] /\
  str_in (lower other_device)
         (diskName (es_extent (spec (expand_option other_disk 1024)))) = true /\
  main (params (Some other_device) present) grown_world =
    (Exit (ExitJson false None), grown_world, [CRescanAllHba H1]).
Proof. repeat split. Qed.


(** C4 as stated fails.  After a successful expand the run reports
    [changed=true] at once: [H2], the other host of the target's cluster,
    is issued neither an HBA rescan nor a VMFS rescan.  And after a
    successful create whose folder move then fails, the run reports the
    failure, again without any rescan of [H2]. *)
Lemma rescans_can_be_skipped :
  In H2 (get_all_hosts_by_cluster grown_world (h_parent_name H1)) /\
  h_name H2 <> "H1" /\
  (fst (fst (main (params (Some device) present) grown_world)) =
     Exit (ExitJson true (Some "Expanded storage on datastore SAN_DS01")) /\
   snd (main (params (Some device) present) grown_world) =
     [CRescanAllHba H1; CQueryVmfsDatastoreExpandOptions H1 SAN_DS01;
      CExpandVmfsDatastore H1 SAN_DS01 (spec (expand_option disk 2048))] /\
   ~ In (CRescanAllHba H2)
        (snd (main (params (Some device) present) grown_world)) /\
   ~ In (CRescanVmfs H2)
        (snd (main (params (Some device) present) grown_world))) /\
  (main (in_cluster "Pod1" (params (Some device) present)) folderless_world =
     (Exit (FailJson
              "Cannot mount datastore SAN_DS01 on host H1 : list index out of range"),
      with_datastores folderless_world [created_SAN_DS01],
      [CRescanAllHba H1;
       CQueryVmfsDatastoreCreateOptions H1 ("/vmfs/devices/disks/" ++ disk);
       CCreateVmfsDatastore
         H1 (set_volumeName (spec create_option) "SAN_DS01")]) /\
   CreateVmfsDatastore folderless_world H1
     (set_volumeName (spec create_option) "SAN_DS01")
   = inr (created_SAN_DS01,
          with_datastores folderless_world [created_SAN_DS01])).
Proof.
  split; [cbn; right; left; reflexivity|].
  split; [discriminate|].
  split; [|split; reflexivity].
  split; [reflexivity|]. split; [reflexivity|].
  split; cbn; intros [E|[E|[E|[]]]]; discriminate E.
Qed.

(** C5 as stated fails.  [SAN_DS01] is mounted on [H1] and [H2], the run
    targets [H1], and the unmount faults on [H2]: no removal is issued,
    but the failure message names [H1], the target, and not [H2]. *)
Lemma unmount_failure_names_the_target :
  host SAN_DS01 = [ {| key := H1 |}; {| key := H2 |} ] /\
  UnmountVmfsVolume
    (with_datastores busy_world [drop_mount H1 SAN_DS01; LOCAL_DS])
    H2 "5f3c-0001"
  = inl {| exn_class := ResourceInUse;
           fault_msg := "The resource is in use.";
           exn_str := "(vim.fault.ResourceInUse)" |} /\
  fst (fst (main (params None absent) busy_world)) =
    Exit (FailJson
            "Cannot umount datastore SAN_DS01 from host H1: The resource is in use.") /\
  snd (main (params None absent) busy_world) =
    [CRescanAllHba H1; CUnmountVmfsVolume H1 "5f3c-0001";
     CUnmountVmfsVolume H2 "5f3c-0001"] /\
  str_in "H2"
    "Cannot umount datastore SAN_DS01 from host H1: The resource is in use."
  = false.
Proof. repeat split. Qed.

End Scenarios.

(** ** Further behaviour of the mutation path *)

Section Runs.
Import Py Vim Ansible Props Behaviour vmware_host_datastore_san.
Context {W : Type} {api : InventoryApi W}.

#[local] Arguments matching_specs : simpl never.
#[local] Arguments existing_wwns : simpl never.
#[local] Arguments for_each : simpl never.
#[local] Arguments append : simpl never.

Ltac run :=
  unfold main, init, process_state, check_datastore_host_state,
    mount_san_datastore_host, umount_san_datastore_host,
    state_exit_unchanged, get_info_vmfs,
    try_except, bind, ret, raise, read, call, call_, query, index0,
    exit_json, fail_json in *;
  cbn [state esxi datastore_name esxi_hostname volume_device_name
       datastore_cluster_name fst snd app] in *.

Ltac given H := rewrite ?H in *; run.

(** X2. When the target host's HBA rescan faults, the run fails with the
    fault's text and nothing else has been called. *)
Theorem rescan_fault_fails (p : Params) (w : W) (h : HostSystem) (e : Exn) :
  find_hostsystem_by_name w (p_esxi_hostname p) = Some h ->
  RescanAllHba w h = inl e ->
  main p w = (Exit (FailJson (state_text e)), w, [CRescanAllHba h]).
Proof.
  intros Hhost Hscan. run. given Hhost. given Hscan. unfold state_text.
  destruct (vmodl_fault (exn_class e)); reflexivity.
Qed.

(** X3. With [state=present] and the datastore found as a VMFS datastore,
    a device that is omitted, or not among the extents' identifiers, is
    the unimplemented case: the run calls nothing after the rescan, not
    even the expand-options query, and reports [changed=false]. *)
Theorem present_other_device_is_noop (p : Params) (w w1 : W)
    (h : HostSystem) (ds : Datastore) (vmfs : HostVmfsVolume) :
  p_state p = present ->
  find_hostsystem_by_name w (p_esxi_hostname p) = Some h ->
  RescanAllHba w h = inr w1 ->
  find_datastore_by_name w1 (p_datastore_name p) = Some ds ->
  info_vmfs ds = Some vmfs ->
  (forall dev, device_of p = Some dev ->
               list_in dev (existing_wwns vmfs) = false) ->
  main p w = (Exit (ExitJson false None), w1, [CRescanAllHba h]).
Proof.
  intros Hst Hhost Hscan Hfind Hv Hd. unfold device_of in Hd.
  run. given Hhost. given Hscan. given Hfind. given Hst. given Hv.
  destruct (if truthy (p_volume_device_name p)
            then option_map lower (p_volume_device_name p)
            else p_volume_device_name p) as [dev|]; [|reflexivity].
  rewrite (Hd dev eq_refl). reflexivity.
Qed.

Lemma matching_specs_none (dev : string)
    (l : list (VmfsDatastoreOption VmfsDatastoreExpandSpec)) :
  Forall (fun x => str_in dev (diskName (es_extent (spec x))) = false) l ->
  matching_specs dev l = [].
Proof.
  unfold matching_specs.
  induction 1 as [|x l Hx _ IH]; cbn; [reflexivity|]. rewrite Hx. exact IH.
Qed.

(** X4. With [state=present], the device among the extents and expand
    options on offer of which none is for the device, the run fails on
    the empty selection ([list index out of range]) without an expand
    call. *)
Theorem expand_without_match_fails (p : Params) (w w1 : W) (h : HostSystem)
    (ds : Datastore) (vmfs : HostVmfsVolume) (dev : string)
    (o : VmfsDatastoreOption VmfsDatastoreExpandSpec)
    (os : list (VmfsDatastoreOption VmfsDatastoreExpandSpec)) :
  p_state p = present ->
  find_hostsystem_by_name w (p_esxi_hostname p) = Some h ->
  RescanAllHba w h = inr w1 ->
  find_datastore_by_name w1 (p_datastore_name p) = Some ds ->
  info_vmfs ds = Some vmfs ->
  p_volume_device_name p = Some dev ->
  list_in (lower dev) (existing_wwns vmfs) = true ->
  QueryVmfsDatastoreExpandOptions w1 h ds = inr (o :: os) ->
  Forall (fun x => str_in (lower dev) (diskName (es_extent (spec x))) = false)
         (o :: os) ->
  main p w =
    (Exit (FailJson ("Cannot mount datastore " ++ p_datastore_name p ++
                     " on host " ++ p_esxi_hostname p ++
                     " : list index out of range")),
     w1, [CRescanAllHba h; CQueryVmfsDatastoreExpandOptions h ds]).
Proof.
  intros Hst Hhost Hscan Hfind Hv Hdev Hin Hq Hnone.
  assert (Hm : matching_specs (lower (lower dev)) (o :: os) = []).
  { rewrite lower_idem. apply matching_specs_none. exact Hnone. }
  run. given Hhost. given Hscan. given Hfind. given Hst. given Hv.
  rewrite Hdev, normalized_some, Hin, Hq. cbn [List.length Nat.ltb Nat.leb].
  rewrite Hm. cbn. unfold error_message_mount.
  cbn [datastore_name esxi_hostname]. rewrite !append_assoc. reflexivity.
Qed.

(** X5. With [state=absent] and the datastore found with no mounting
    host, the removal is issued at once; the VMFS UUID is never read, so
    this holds for a datastore that is not VMFS too. *)
Theorem removal_without_mounts (p : Params) (w w1 w2 : W) (h : HostSystem)
    (ds : Datastore) :
  p_state p = absent ->
  find_hostsystem_by_name w (p_esxi_hostname p) = Some h ->
  RescanAllHba w h = inr w1 ->
  find_datastore_by_name w1 (p_datastore_name p) = Some ds ->
  host ds = [] ->
  RemoveDatastore w1 h ds = inr w2 ->
  main p w =
    (Exit (ExitJson true (Some ("Datastore " ++ p_datastore_name p ++
                                " on host " ++ p_esxi_hostname p))),
     w2, [CRescanAllHba h; CRemoveDatastore h ds]).
Proof.
  intros Hst Hhost Hscan Hfind Hm Hrm.
  run. given Hhost. given Hscan. given Hfind. given Hst.
  rewrite Hm. unfold for_each. run. rewrite Hrm. reflexivity.
Qed.

(** X6. With [state=absent] and a mounted datastore that has no VMFS
    volume, reading the UUID for the first unmount raises: the run fails
    before any unmount or removal is issued. *)
Theorem removal_of_non_vmfs_fails (p : Params) (w w1 : W) (h : HostSystem)
    (ds : Datastore) (m : DatastoreHostMount) (l : list DatastoreHostMount) :
  p_state p = absent ->
  find_hostsystem_by_name w (p_esxi_hostname p) = Some h ->
  RescanAllHba w h = inr w1 ->
  find_datastore_by_name w1 (p_datastore_name p) = Some ds ->
  info_vmfs ds = None ->
  host ds = m :: l ->
  exists tail,
    main p w =
      (Exit (FailJson ("Cannot umount datastore " ++ p_datastore_name p ++
                       " from host " ++ p_esxi_hostname p ++ ": " ++ tail)),
       w1, [CRescanAllHba h]).
Proof.
  intros Hst Hhost Hscan Hfind Hv Hm.
  exists (exn_str (AttributeError "vmfs")).
  run. given Hhost. given Hscan. given Hfind. given Hst.
  rewrite Hm, for_each_cons. run. rewrite Hv. cbn.
  unfold error_message_umount. cbn [datastore_name esxi_hostname].
  rewrite !append_assoc. reflexivity.
Qed.

(** X7. With [state=absent], when every unmount answers and the removal
    then faults, the run fails with the fault's text: the unmounts have
    been carried out and stand (the world is the one they left), nothing
    is undone. *)
Theorem removal_fault_after_unmounts (p : Params) (w w1 w2 : W)
    (h : HostSystem) (ds : Datastore) (vmfs : HostVmfsVolume) (e : Exn) :
  p_state p = absent ->
  find_hostsystem_by_name w (p_esxi_hostname p) = Some h ->
  RescanAllHba w h = inr w1 ->
  find_datastore_by_name w1 (p_datastore_name p) = Some ds ->
  info_vmfs ds = Some vmfs ->
  unmount_all w1 (host ds) (uuid vmfs) = inr w2 ->
  RemoveDatastore w2 h ds = inl e ->
  main p w =
    (Exit (FailJson ("Cannot umount datastore " ++ p_datastore_name p ++
                     " from host " ++ p_esxi_hostname p ++ ": " ++
                     umount_text e)),
     w2,
     ([CRescanAllHba h] ++ unmount_calls (uuid vmfs) (host ds)
      ++ [CRemoveDatastore h ds])%list).
Proof.
  intros Hst Hhost Hscan Hfind Hv Hall Hrm.
  assert (Hu : umount_san_datastore_host (self_of p h) (Some ds) w1 =
    (Exit (FailJson (("Cannot umount datastore " ++ p_datastore_name p ++
                      " from host " ++ p_esxi_hostname p) ++ ": " ++
                     umount_text e)),
     w2,
     ((unmount_calls (uuid vmfs) (host ds) ++ [CRemoveDatastore h ds])
      ++ [])%list)).
  { unfold umount_san_datastore_host.
    unfold try_except, bind at 1 2.
    rewrite (unmount_loop_ok ds vmfs (host ds) Hv w1 w2 Hall).
    unfold call_. cbn [esxi self_of]. rewrite Hrm.
    unfold error_message_umount, fail_json, umount_text.
    cbn [datastore_name esxi_hostname self_of].
    destruct (umount_fault (exn_class e)); reflexivity. }
  edestruct (main_dispatch p w w1 w2 h) as (r2 & E & Hex & _);
    [exact Hhost|exact Hscan|rewrite Hst, Hfind; exact Hu|].
  rewrite E, (Hex _ eq_refl). cbn [app]. rewrite ?app_nil_r.
  rewrite !append_assoc. reflexivity.
Qed.

(** X8. Only the lower-cased device name reaches the run: a run with
    [volume_device_name] in any case behaves exactly as the run with the
    name lower-cased. *)
Theorem device_case_is_irrelevant (p : Params) (dev : string) (w : W) :
  p_volume_device_name p = Some dev ->
  main p w = main (with_device p (Some (lower dev))) w.
Proof.
  intros Hdev. unfold main, init, bind, read.
  cbn [with_device p_esxi_hostname p_datastore_name p_volume_device_name
       p_state p_datastore_cluster_name].
  rewrite Hdev, !normalized_some, lower_idem. reflexivity.
Qed.

(** X9. With [state=present] and no datastore found, a create-options
    query that faults or offers nothing ends the run as a mount failure:
    no create call is issued. *)
Theorem create_without_option_fails (p : Params) (w w1 : W) (h : HostSystem) :
  p_state p = present ->
  find_hostsystem_by_name w (p_esxi_hostname p) = Some h ->
  RescanAllHba w h = inr w1 ->
  find_datastore_by_name w1 (p_datastore_name p) = None ->
  (forall e,
     QueryVmfsDatastoreCreateOptions
       w1 h ("/vmfs/devices/disks/naa." ++ str (device_of p)) = inl e ->
     main p w =
     (Exit (FailJson ("Cannot mount datastore " ++ p_datastore_name p ++
                      " on host " ++ p_esxi_hostname p ++ " : " ++
                      mount_text e)),
      w1,
      [CRescanAllHba h;
       CQueryVmfsDatastoreCreateOptions
         h ("/vmfs/devices/disks/naa." ++ str (device_of p))])) /\
  (QueryVmfsDatastoreCreateOptions
     w1 h ("/vmfs/devices/disks/naa." ++ str (device_of p)) = inr [] ->
   main p w =
   (Exit (FailJson ("Cannot mount datastore " ++ p_datastore_name p ++
                    " on host " ++ p_esxi_hostname p ++
                    " : list index out of range")),
    w1,
    [CRescanAllHba h;
     CQueryVmfsDatastoreCreateOptions
       h ("/vmfs/devices/disks/naa." ++ str (device_of p))])).
Proof.
  intros Hst Hhost Hscan Hfind. split.
  - intros e Hq. run. given Hhost. given Hscan. given Hfind. given Hst.
    unfold ds_path, error_message_mount, device_of, mount_text in *.
    cbn [volume_device_name datastore_name esxi_hostname].
    rewrite Hq.
    destruct (mount_fault (exn_class e)); cbn; rewrite !append_assoc;
      reflexivity.
  - intros Hq. run. given Hhost. given Hscan. given Hfind. given Hst.
    unfold ds_path, error_message_mount, device_of in *.
    cbn [volume_device_name datastore_name esxi_hostname].
    rewrite Hq. cbn. rewrite !append_assoc. reflexivity.
Qed.

(** X10. With [state=present] and no datastore found, when the create
    call itself faults the run fails with the fault's text right away:
    no folder move and no sibling rescan is issued. *)
Theorem create_fault_fails (p : Params) (w w1 : W) (h : HostSystem)
    (o : VmfsDatastoreOption VmfsDatastoreCreateSpec)
    (os : list (VmfsDatastoreOption VmfsDatastoreCreateSpec)) (e : Exn) :
  p_state p = present ->
  find_hostsystem_by_name w (p_esxi_hostname p) = Some h ->
  RescanAllHba w h = inr w1 ->
  find_datastore_by_name w1 (p_datastore_name p) = None ->
  QueryVmfsDatastoreCreateOptions
    w1 h ("/vmfs/devices/disks/naa." ++ str (device_of p)) = inr (o :: os) ->
  CreateVmfsDatastore w1 h (set_volumeName (spec o) (p_datastore_name p))
    = inl e ->
  main p w =
    (Exit (FailJson ("Cannot mount datastore " ++ p_datastore_name p ++
                     " on host " ++ p_esxi_hostname p ++ " : " ++
                     mount_text e)),
     w1,
     [CRescanAllHba h;
      CQueryVmfsDatastoreCreateOptions
        h ("/vmfs/devices/disks/naa." ++ str (device_of p));
      CCreateVmfsDatastore
        h (set_volumeName (spec o) (p_datastore_name p))]).
Proof.
  intros Hst Hhost Hscan Hfind Hq Hc.
  run. given Hhost. given Hscan. given Hfind. given Hst.
  unfold ds_path, error_message_mount, device_of, mount_text in *.
  cbn [volume_device_name datastore_name esxi_hostname].
  rewrite Hq. cbn. rewrite Hc.
  destruct (mount_fault (exn_class e)); cbn; rewrite !append_assoc;
    reflexivity.
Qed.

(** One turn of the sibling-rescan loop on a host other than the
    target. *)
Lemma rescan_body (x : HostSystem) (w : W) :
  bind (call_ (CRescanAllHba x) (fun w => RescanAllHba w x))
       (fun _ => call_ (CRescanVmfs x) (fun w => RescanVmfs w x)) w
  = match RescanAllHba w x with
    | inl e => (Raise e, w, [CRescanAllHba x])
    | inr wa =>
        match RescanVmfs wa x with
        | inl e => (Raise e, wa, [CRescanAllHba x; CRescanVmfs x])
        | inr wb => (Ret tt, wb, [CRescanAllHba x; CRescanVmfs x])
        end
    end.
Proof.
  unfold bind, call_. destruct (RescanAllHba w x) as [e|wa]; [reflexivity|].
  destruct (RescanVmfs wa x); reflexivity.
Qed.

(** The sibling-rescan loop, every rescan answering. *)
Lemma rescan_loop_ok (target : string) (l : list HostSystem) :
  forall w w' : W,
    rescan_all target w l = inr w' ->
    for_each l (fun x =>
      if negb (String.eqb (h_name x) target)
      then bind (call_ (CRescanAllHba x) (fun w => RescanAllHba w x))
                (fun _ => call_ (CRescanVmfs x) (fun w => RescanVmfs w x))
      else ret tt) w
    = (Ret tt, w', sibling_rescans target l).
Proof.
  unfold sibling_rescans.
  induction l as [|x l IH]; intros w w' H.
  - inversion H. reflexivity.
  - rewrite for_each_cons. cbn [rescan_all filter] in *.
    destruct (negb (String.eqb (h_name x) target)).
    + rewrite rescan_body.
      destruct (RescanAllHba w x) as [e|wa]; [discriminate|].
      destruct (RescanVmfs wa x) as [e|wb]; [discriminate|].
      rewrite (IH _ _ H). reflexivity.
    + unfold ret at 1. rewrite (IH _ _ H). reflexivity.
Qed.

(** The sibling-rescan loop stops at the first rescan that faults. *)
Lemma rescan_loop_fault (target : string) (pre post : list HostSystem)
    (x : HostSystem) (e : Exn) :
  negb (String.eqb (h_name x) target) = true ->
  forall w wi : W,
    rescan_all target w pre = inr wi ->
    (RescanAllHba wi x = inl e ->
     for_each (pre ++ x :: post)%list (fun x =>
       if negb (String.eqb (h_name x) target)
       then bind (call_ (CRescanAllHba x) (fun w => RescanAllHba w x))
                 (fun _ => call_ (CRescanVmfs x) (fun w => RescanVmfs w x))
       else ret tt) w
     = (Raise e, wi,
        (sibling_rescans target pre ++ [CRescanAllHba x])%list)) /\
    (forall wa,
       RescanAllHba wi x = inr wa -> RescanVmfs wa x = inl e ->
       for_each (pre ++ x :: post)%list (fun x =>
         if negb (String.eqb (h_name x) target)
         then bind (call_ (CRescanAllHba x) (fun w => RescanAllHba w x))
                   (fun _ => call_ (CRescanVmfs x) (fun w => RescanVmfs w x))
         else ret tt) w
       = (Raise e, wa,
          (sibling_rescans target pre
           ++ [CRescanAllHba x; CRescanVmfs x])%list)).
Proof.
  intros Hx. unfold sibling_rescans.
  induction pre as [|y pre IH]; intros w wi H.
  - inversion H; subst. cbn [app filter flat_map]. split.
    + intros He. rewrite for_each_cons, Hx, rescan_body, He. reflexivity.
    + intros wa Ha He. rewrite for_each_cons, Hx, rescan_body, Ha, He.
      reflexivity.
  - cbn [app rescan_all filter] in *.
    destruct (negb (String.eqb (h_name y) target)) eqn:Hy.
    + destruct (RescanAllHba w y) as [e0|wa0] eqn:Ea; [discriminate|].
      destruct (RescanVmfs wa0 y) as [e0|wb0] eqn:Eb; [discriminate|].
      destruct (IH _ _ H) as [IH1 IH2]. split.
      * intros He. rewrite for_each_cons, Hy, rescan_body, Ea, Eb.
        rewrite (IH1 He). reflexivity.
      * intros wa Ha He. rewrite for_each_cons, Hy, rescan_body, Ea, Eb.
        rewrite (IH2 wa Ha He). reflexivity.
    + destruct (IH _ _ H) as [IH1 IH2]. split.
      * intros He. rewrite for_each_cons, Hy. unfold ret at 1.
        rewrite (IH1 He). reflexivity.
      * intros wa Ha He. rewrite for_each_cons, Hy. unfold ret at 1.
        rewrite (IH2 wa Ha He). reflexivity.
Qed.

(** X11. With [state=present], no datastore found, no datastore cluster
    named (or named by the empty string), the query offering an option,
    the create answering and every sibling rescan answering, the run
    reports [changed=true] with [Datastore <name> on host <host>], and
    its calls are the rescan, the query, the create and the sibling
    rescans, in this order. *)
Theorem create_succeeds (p : Params) (w w1 wc w' : W) (h : HostSystem)
    (o : VmfsDatastoreOption VmfsDatastoreCreateSpec)
    (os : list (VmfsDatastoreOption VmfsDatastoreCreateSpec))
    (ds : Datastore) :
  p_state p = present ->
  find_hostsystem_by_name w (p_esxi_hostname p) = Some h ->
  RescanAllHba w h = inr w1 ->
  find_datastore_by_name w1 (p_datastore_name p) = None ->
  truthy (p_datastore_cluster_name p) = false ->
  QueryVmfsDatastoreCreateOptions
    w1 h ("/vmfs/devices/disks/naa." ++ str (device_of p)) = inr (o :: os) ->
  CreateVmfsDatastore w1 h (set_volumeName (spec o) (p_datastore_name p))
    = inr (ds, wc) ->
  rescan_all (p_esxi_hostname p) wc
             (get_all_hosts_by_cluster wc (h_parent_name h)) = inr w' ->
  main p w =
    (Exit (ExitJson true (Some ("Datastore " ++ p_datastore_name p ++
                                " on host " ++ p_esxi_hostname p))),
     w',
     ([CRescanAllHba h;
       CQueryVmfsDatastoreCreateOptions
         h ("/vmfs/devices/disks/naa." ++ str (device_of p));
       CCreateVmfsDatastore
         h (set_volumeName (spec o) (p_datastore_name p))]
      ++ sibling_rescans (p_esxi_hostname p)
           (get_all_hosts_by_cluster wc (h_parent_name h)))%list).
Proof.
  intros Hst Hhost Hscan Hfind Hcl Hq Hc Hall.
  pose proof (rescan_loop_ok _ _ _ _ Hall) as El.
  run. given Hhost. given Hscan. given Hfind. given Hst.
  unfold ds_path, device_of in *. cbn [volume_device_name].
  rewrite Hq. cbn [app]. rewrite Hc.
  unfold rescan_other_hosts_in_cluster. run.
  destruct (p_datastore_cluster_name p) as [[|c cs]|];
    [|discriminate Hcl|]; rewrite El; cbn; rewrite ?app_nil_r; reflexivity.
Qed.

(** X12. With a datastore cluster named, the new datastore is moved into
    the first child of the first [datastore] folder that carries the
    cluster's name, the task is awaited, and the siblings are rescanned.
    The success flag [wait_for_task] returns is not looked at: the run
    reports [changed=true] either way, with the task's result in the
    message. *)
Theorem create_in_cluster_ignores_task_flag (p : Params)
    (w w1 wc wt wm w' : W) (h : HostSystem)
    (o : VmfsDatastoreOption VmfsDatastoreCreateSpec)
    (os : list (VmfsDatastoreOption VmfsDatastoreCreateSpec))
    (ds : Datastore) (c : ascii) (cs : string)
    (dsfolder : Folder) (frest : list Folder)
    (src tgt : ManagedEntity) (srest trest : list ManagedEntity)
    (task : Task) (success : bool) (result : string) :
  p_state p = present ->
  find_hostsystem_by_name w (p_esxi_hostname p) = Some h ->
  RescanAllHba w h = inr w1 ->
  find_datastore_by_name w1 (p_datastore_name p) = None ->
  p_datastore_cluster_name p = Some (String c cs) ->
  QueryVmfsDatastoreCreateOptions
    w1 h ("/vmfs/devices/disks/naa." ++ str (device_of p)) = inr (o :: os) ->
  CreateVmfsDatastore w1 h (set_volumeName (spec o) (p_datastore_name p))
    = inr (ds, wc) ->
  filter (fun x => String.eqb (f_name x) "datastore") (get_all_objs_Folder wc)
    = dsfolder :: frest ->
  filter (fun x => String.eqb (me_name x) (p_datastore_name p))
         (childEntity dsfolder) = src :: srest ->
  filter (fun x => String.eqb (me_name x) (String c cs))
         (childEntity dsfolder) = tgt :: trest ->
  MoveIntoFolder_Task wc tgt [src] = inr (task, wt) ->
  wait_for_task wt task = inr ((success, result), wm) ->
  rescan_all (p_esxi_hostname p) wm
             (get_all_hosts_by_cluster wm (h_parent_name h)) = inr w' ->
  main p w =
    (Exit (ExitJson true
             (Some ("Datastore " ++ p_datastore_name p ++
                    " of cluster " ++ String c cs ++
                    " on host " ++ p_esxi_hostname p ++ " : " ++ result))),
     w',
     ([CRescanAllHba h;
       CQueryVmfsDatastoreCreateOptions
         h ("/vmfs/devices/disks/naa." ++ str (device_of p));
       CCreateVmfsDatastore
         h (set_volumeName (spec o) (p_datastore_name p));
       CMoveIntoFolder_Task tgt [src]; CWaitForTask task]
      ++ sibling_rescans (p_esxi_hostname p)
           (get_all_hosts_by_cluster wm (h_parent_name h)))%list).
Proof.
  intros Hst Hhost Hscan Hfind Hcl Hq Hc Hf Hs Ht Hm Hw Hall.
  pose proof (rescan_loop_ok _ _ _ _ Hall) as El.
  run. given Hhost. given Hscan. given Hfind. given Hst.
  unfold ds_path, device_of in *. cbn [volume_device_name].
  rewrite Hq. cbn [app]. rewrite Hc, Hcl.
  unfold move_into_cluster, rescan_other_hosts_in_cluster. run.
  rewrite Hf. run. rewrite Hs. run. rewrite Ht. run. rewrite Hm. run.
  rewrite Hw. run. rewrite El. cbn. rewrite ?app_nil_r. reflexivity.
Qed.

(** X13. A sibling rescan that faults after the datastore has been
    created ends the run as a mount failure: the create stands, the later
    siblings are not rescanned, and [changed] is not reported. *)
Theorem sibling_rescan_fault_fails (p : Params) (w w1 wc wi : W)
    (h x : HostSystem)
    (o : VmfsDatastoreOption VmfsDatastoreCreateSpec)
    (os : list (VmfsDatastoreOption VmfsDatastoreCreateSpec))
    (ds : Datastore) (pre post : list HostSystem) (e : Exn) :
  p_state p = present ->
  find_hostsystem_by_name w (p_esxi_hostname p) = Some h ->
  RescanAllHba w h = inr w1 ->
  find_datastore_by_name w1 (p_datastore_name p) = None ->
  truthy (p_datastore_cluster_name p) = false ->
  QueryVmfsDatastoreCreateOptions
    w1 h ("/vmfs/devices/disks/naa." ++ str (device_of p)) = inr (o :: os) ->
  CreateVmfsDatastore w1 h (set_volumeName (spec o) (p_datastore_name p))
    = inr (ds, wc) ->
  get_all_hosts_by_cluster wc (h_parent_name h) = (pre ++ x :: post)%list ->
  h_name x <> p_esxi_hostname p ->
  rescan_all (p_esxi_hostname p) wc pre = inr wi ->
  RescanAllHba wi x = inl e ->
  main p w =
    (Exit (FailJson ("Cannot mount datastore " ++ p_datastore_name p ++
                     " on host " ++ p_esxi_hostname p ++ " : " ++
                     mount_text e)),
     wi,
     ([CRescanAllHba h;
       CQueryVmfsDatastoreCreateOptions
         h ("/vmfs/devices/disks/naa." ++ str (device_of p));
       CCreateVmfsDatastore
         h (set_volumeName (spec o) (p_datastore_name p))]
      ++ sibling_rescans (p_esxi_hostname p) pre
      ++ [CRescanAllHba x])%list).
Proof.
  intros Hst Hhost Hscan Hfind Hcl Hq Hc Hl Hx Hall He.
  assert (Hx' : negb (String.eqb (h_name x) (p_esxi_hostname p)) = true).
  { destruct (String.eqb_spec (h_name x) (p_esxi_hostname p));
      [contradiction|reflexivity]. }
  destruct (rescan_loop_fault _ pre post x e Hx' _ _ Hall) as [El _].
  specialize (El He).
  run. given Hhost. given Hscan. given Hfind. given Hst.
  unfold ds_path, device_of, error_message_mount, mount_text in *.
  cbn [volume_device_name datastore_name esxi_hostname].
  rewrite Hq. cbn [app]. rewrite Hc.
  unfold rescan_other_hosts_in_cluster. run.
  destruct (p_datastore_cluster_name p) as [[|c cs]|];
    [|discriminate Hcl|]; rewrite Hl, El;
    destruct (mount_fault (exn_class e)); cbn; rewrite ?app_nil_r;
    rewrite !append_assoc; reflexivity.
Qed.

(** *** What a run may call: rules for the combinators *)

Section Emits.
Context (P : Call -> bool).

Lemma emits_ret {A} (a : A) : emits P (ret (W := W) a).
Proof. intros w. constructor. Qed.

Lemma emits_raise {A} (e : Exn) : emits P (raise (W := W) (A := A) e).
Proof. intros w. constructor. Qed.

Lemma emits_exit_json {A} (c : bool) (r : option string) :
  emits P (exit_json (W := W) (A := A) c r).
Proof. intros w. constructor. Qed.

Lemma emits_fail_json {A} (msg : string) :
  emits P (fail_json (W := W) (A := A) msg).
Proof. intros w. constructor. Qed.

Lemma emits_read {A} (f : W -> A) : emits P (read f).
Proof. intros w. constructor. Qed.

Lemma emits_index0 {A} (l : list A) : emits P (index0 (W := W) l).
Proof. intros w. destruct l; constructor. Qed.

Lemma emits_call {A} (c : Call) (op : W -> Exn + (A * W)) :
  P c = true -> emits P (call c op).
Proof.
  intros Hc w. unfold call. destruct (op w) as [e|[a w']]; cbn;
    repeat constructor; exact Hc.
Qed.

Lemma emits_call_ (c : Call) (op : W -> Exn + W) :
  P c = true -> emits P (call_ c op).
Proof.
  intros Hc w. unfold call_. destruct (op w) as [e|w']; cbn;
    repeat constructor; exact Hc.
Qed.

Lemma emits_query {A} (c : Call) (op : W -> Exn + A) :
  P c = true -> emits P (query c op).
Proof.
  intros Hc w. unfold query. destruct (op w) as [e|a]; cbn;
    repeat constructor; exact Hc.
Qed.

Lemma emits_bind {A B} (m : M W A) (f : A -> M W B) :
  emits P m -> (forall a, emits P (f a)) -> emits P (bind m f).
Proof.
  intros Hm Hf w. unfold bind. specialize (Hm w).
  destruct (m w) as [[r w1] t1]. destruct r as [a|e|j]; cbn in *; auto.
  specialize (Hf a w1). destruct (f a w1) as [[r2 w2] t2]. cbn in *.
  apply Forall_app. split; assumption.
Qed.

Lemma emits_try_except {A} (m : M W A) (hd : Exn -> M W A) :
  emits P m -> (forall e, emits P (hd e)) -> emits P (try_except m hd).
Proof.
  intros Hm Hh w. unfold try_except. specialize (Hm w).
  destruct (m w) as [[r w1] t1]. destruct r as [a|e|j]; cbn in *; auto.
  specialize (Hh e w1). destruct (hd e w1) as [[r2 w2] t2]. cbn in *.
  apply Forall_app. split; assumption.
Qed.

Lemma emits_for_each {A} (l : list A) (body : A -> M W unit) :
  (forall x, emits P (body x)) -> emits P (for_each l body).
Proof.
  intros Hb. induction l as [|x l IH].
  - intros w. constructor.
  - change (for_each (x :: l) body)
      with (bind (body x) (fun _ => for_each l body)).
    apply emits_bind; [apply Hb|intros _; exact IH].
Qed.

End Emits.

(** Decompose a goal [emits P m] along the structure of [m]. *)
Ltac emit1 :=
  first
    [ apply emits_bind | apply emits_try_except | apply emits_for_each
    | apply emits_ret | apply emits_raise | apply emits_exit_json
    | apply emits_fail_json | apply emits_read | apply emits_index0
    | apply emits_call; reflexivity | apply emits_call_; reflexivity
    | apply emits_query; reflexivity
    | match goal with
      | |- forall _, _ => intro
      | |- emits _ (if ?x then _ else _) => destruct x
      | |- emits _ (match ?x with _ => _ end) => destruct x
      end ].

Ltac emit := repeat emit1.

(** [main] calls what [process_state] calls on the object built. *)
Lemma emits_main (P : Call -> bool) (p : Params) :
  (forall h, emits P (process_state (self_of p h))) -> emits P (main p).
Proof.
  intros H w. unfold main, init, bind, read.
  destruct (find_hostsystem_by_name w (p_esxi_hostname p)) as [h|].
  - unfold ret. fold (self_of p h). specialize (H h w).
    destruct (process_state (self_of p h) w) as [[r w'] t]. exact H.
  - constructor.
Qed.

(** X14. A [state=present] run never issues an unmount or a removal,
    whatever the inventory answers. *)
Theorem present_never_unmounts_or_removes (p : Params) :
  p_state p = present -> emits present_call (main p).
Proof.
  intros Hst. apply emits_main. intros h.
  unfold process_state, check_datastore_host_state.
  cbn [state self_of]. rewrite Hst.
  unfold mount_san_datastore_host, move_into_cluster,
    rescan_other_hosts_in_cluster, get_info_vmfs, state_exit_unchanged.
  emit.
Qed.

(** X15. A [state=absent] run issues nothing but HBA rescans of the
    target, unmounts and a removal: never a query, a create, an expand, a
    folder move or a VMFS rescan. *)
Theorem absent_never_creates_or_expands (p : Params) :
  p_state p = absent -> emits absent_call (main p).
Proof.
  intros Hst. apply emits_main. intros h.
  unfold process_state, check_datastore_host_state.
  cbn [state self_of]. rewrite Hst.
  unfold umount_san_datastore_host, get_info_vmfs.
  emit.
Qed.

Lemma rescan_spares_target (self : Self) :
  emits (spares_target (esxi_hostname self))
        (rescan_other_hosts_in_cluster self).
Proof.
  unfold rescan_other_hosts_in_cluster.
  apply emits_bind; [apply emits_read|]. intros l.
  apply emits_for_each. intros x.
  destruct (negb (String.eqb (h_name x) (esxi_hostname self))) eqn:E.
  - apply emits_bind; [apply emits_call_; reflexivity|]. intros _.
    apply emits_call_. exact E.
  - apply emits_ret.
Qed.

(** X16. No run ever issues a VMFS rescan to a host that carries the
    target host's name: the target's VMFS layer is never rescanned, only
    its HBAs. *)
Theorem target_vmfs_never_rescanned (p : Params) :
  emits (spares_target (p_esxi_hostname p)) (main p).
Proof.
  apply emits_main. intros h.
  unfold process_state, check_datastore_host_state.
  cbn [state self_of].
  unfold mount_san_datastore_host, umount_san_datastore_host,
    move_into_cluster, get_info_vmfs, state_exit_unchanged.
  repeat first [apply (rescan_spares_target (self_of p h)) | emit1].
Qed.

Lemma bind_first {A B} (m : M W A) (k : A -> M W B) (w w' : W)
    (r : Res Json A) (c : Call) (rest : list Call) :
  m w = (r, w', c :: rest) ->
  exists r2 w2 rest2, bind m k w = (r2, w2, c :: rest2).
Proof.
  intros H. unfold bind. rewrite H. destruct r as [a|e|j]; eauto.
  destruct (k a w') as [[r2 w2] t2]. cbn. eauto.
Qed.

Lemma call_first (c : Call) (op : W -> Exn + W) (w : W) :
  exists r w', call_ c op w = (r, w', [c]).
Proof. unfold call_. destruct (op w); eauto. Qed.

(** X17. Whenever the host resolves, the first remote call of the run is
    the HBA rescan of the target host, for [state=absent] as much as for
    [state=present]. *)
Theorem rescan_comes_first (p : Params) (w : W) (h : HostSystem) :
  find_hostsystem_by_name w (p_esxi_hostname p) = Some h ->
  exists rest, snd (main p w) = CRescanAllHba h :: rest.
Proof.
  intros Hhost.
  assert (Hp : exists r w' rest,
             process_state (self_of p h) w = (r, w', CRescanAllHba h :: rest)).
  { unfold process_state, check_datastore_host_state.
    destruct (call_first (CRescanAllHba h) (fun w0 => RescanAllHba w0 h) w)
      as (r0 & w0 & E0).
    destruct (bind_first _ (fun _ => read (fun w0 =>
                find_datastore_by_name w0 (p_datastore_name p)))
                _ _ _ _ _ E0) as (r1 & w1 & t1 & E1).
    match goal with
    | |- context [try_except (bind _ ?k) ?hd] =>
        destruct (bind_first _ k _ _ _ _ _ E1) as (r2 & w2 & t2 & E2);
        destruct (try_except_first _ hd _ _ _ _ _ E2) as (r3 & w3 & t3 & E3)
    end.
    eauto. }
  destruct Hp as (r & w' & rest & E).
  unfold main, init, bind, read. rewrite Hhost. unfold ret.
  fold (self_of p h). rewrite E. cbn. eauto.
Qed.

(** *** How a run ends: rules for the combinators *)










Section ExitsWithin.
Context (Q : Json -> Prop).













End ExitsWithin.



(** The equation [H] equates a failure with something else. *)
Ltac bad H :=
  solve [ repeat match type of H with
                 | context [if ?b then _ else _] => destruct b
                 end; cbn in H; discriminate H ].

Lemma filter_none (P : Call -> bool) (l : list Call) :
  Forall (fun c => negb (P c) = true) l -> filter P l = [].
Proof.
  induction 1 as [|c l Hc _ IH]; cbn; [reflexivity|].
  destruct (P c); [discriminate Hc|exact IH].
Qed.

Lemma sibling_rescans_no_mutation (target : string) (l : list HostSystem) :
  filter is_mutation (sibling_rescans target l) = [].
Proof.
  unfold sibling_rescans.
  induction l as [|x l IH]; cbn; [reflexivity|].
  destruct (negb (String.eqb (h_name x) target)); cbn; exact IH.
Qed.

(** A removal that reports a result has unmounted, then removed. *)
Lemma umount_present_result (self : Self) (ds : Datastore) (w1 w' : W)
    (c : bool) (r : option string) (t : list Call) :
  umount_san_datastore_host self (Some ds) w1
    = (Exit (ExitJson c r), w', t) ->
  c = true /\ List.length (filter is_mutation t) = 1.
Proof.
  unfold umount_san_datastore_host, try_except. unfold bind at 1 2.
  match goal with
  | |- context [for_each ?l ?b w1] =>
      pose proof (emits_for_each (fun c => negb (is_mutation c)) l b) as Hl;
      destruct (for_each l b w1) as [[r0 w0] t0] eqn:El
  end.
  assert (Ht0 : filter is_mutation t0 = []).
  { apply filter_none. specialize (Hl ltac:(
      intros x; unfold get_info_vmfs;
      apply emits_bind; [destruct (info_vmfs ds);
                          [apply emits_ret|apply emits_raise]|];
      intros v; apply emits_call_; reflexivity) w1).
    rewrite El in Hl. exact Hl. }
  destruct (unmount_loop_shape _ _ _ _ _ _ El) as [->|[e ->]].
  - unfold call_, exit_json, fail_json.
    destruct (RemoveDatastore w0 (esxi self) ds) as [e|w2]; cbn.
    + destruct (umount_fault (exn_class e)); intros H; inversion H.
    + intros H; inversion H; subst. split; [reflexivity|].
      rewrite ?app_nil_r, filter_app, Ht0. reflexivity.
  - unfold exit_json, fail_json.
    destruct (umount_fault (exn_class e)); intros H; inversion H.
Qed.

(** X19. The [changed] flag counts the datastore's mutations: a run that
    reports [changed=true] has issued exactly one create, expand or
    removal call, and a run that reports [changed=false] none. *)
Theorem changed_counts_mutations (p : Params) (w w' : W) (c : bool)
    (r : option string) (t : list Call) :
  main p w = (Exit (ExitJson c r), w', t) ->
  List.length (filter is_mutation t) = if c then 1 else 0.
Proof.
  intros H.
  destruct (find_hostsystem_by_name w (p_esxi_hostname p)) as [h|] eqn:Hhost;
    [|run; rewrite Hhost in H; discriminate H].
  destruct (RescanAllHba w h) as [e|w1] eqn:Hscan.
  { run. given Hhost. rewrite Hscan in H. cbn in H.
    destruct (vmodl_fault (exn_class e)); discriminate H. }
  destruct (match p_state p with
            | present =>
                mount_san_datastore_host (self_of p h)
                  (find_datastore_by_name w1 (p_datastore_name p))
            | absent =>
                umount_san_datastore_host (self_of p h)
                  (find_datastore_by_name w1 (p_datastore_name p))
            end w1) as [[r0 w0] t0] eqn:Hrun.
  destruct (main_dispatch p w w1 w0 h r0 t0 Hhost Hscan Hrun)
    as (r2 & E & _ & Hback).
  pose proof E as E'. rewrite H in E'. inversion E'; subst r2 w0 t.
  pose proof (Hback _ _ eq_refl) as Hr. subst r0.
  cbn [filter is_mutation].
  destruct (p_state p) eqn:Hst.
  - destruct (find_datastore_by_name w1 (p_datastore_name p))
      as [ds|] eqn:Hfind.
    + clear E E' H Hback.
      unfold mount_san_datastore_host, self_of in Hrun. run.
      destruct (info_vmfs ds) as [vmfs|]; [|bad Hrun].
      destruct (if truthy (p_volume_device_name p)
                then option_map lower (p_volume_device_name p)
                else p_volume_device_name p) as [dev|];
        [|inversion Hrun; reflexivity].
      cbn in Hrun.
      destruct (list_in dev (existing_wwns vmfs));
        [|inversion Hrun; reflexivity].
      destruct (QueryVmfsDatastoreExpandOptions w1 h ds) as [e|[|o os]];
        cbn in Hrun; [bad Hrun|inversion Hrun; reflexivity|].
      destruct (matching_specs (lower dev) (o :: os)) as [|s1 ss];
        cbn in Hrun; [bad Hrun|].
      destruct (ExpandVmfsDatastore w1 h ds s1); cbn in Hrun; [bad Hrun|].
      inversion Hrun; reflexivity.
    + destruct (create_path p w w1 w' h c r _ Hst Hhost Hscan Hfind E)
        as (-> & o & os & ds & wc & wm & mid & _ & _ & Hmid & Ht).
      inversion Ht as [Ht0]. cbn [filter is_mutation List.length].
      rewrite filter_app, sibling_rescans_no_mutation, app_nil_r.
      destruct Hmid as [[-> _]|(tgt & src & task & wt & sr & _ & _ & ->)];
        reflexivity.
  - destruct (find_datastore_by_name w1 (p_datastore_name p))
      as [ds|] eqn:Hfind.
    + destruct (umount_present_result _ _ _ _ _ _ _ Hrun) as [-> Hn].
      exact Hn.
    + inversion Hrun. reflexivity.
Qed.

End Runs.

(** ** Further behaviour of the facts path *)

Section FactsBehaviour.
Import Py Vim Ansible Props Behaviour vmware_datastore_san_facts.
Context {W : Type} {api : InventoryApi W}.

(** X20. Asking for the facts of a named datastore that does not exist
    fails: the run does not answer with an empty list. *)
Theorem facts_of_missing_datastore_fail (p : Params) (w : W)
    (c : ascii) (cs : string) :
  p_datastore_name p = Some (String c cs) ->
  find_datastore_by_name w (String c cs) = None ->
  connect_to_api w = inr tt ->
  exists msg, main true p w = Exit (FailJson msg).
Proof.
  intros Hn Hf Hc. unfold main, try_except, gather_facts, bind.
  cbn [negb]. rewrite Hc, Hn, Hf. cbn. eauto.
Qed.

(** X21. A datastore name takes precedence: when [datastore_name] is given
    and not empty, [esxi_hostname] is not looked at. *)
Theorem datastore_name_takes_precedence (has : bool) (p : Params) (w : W)
    (c : ascii) (cs : string) (on : option string) :
  p_datastore_name p = Some (String c cs) ->
  main has p w = main has (with_esxi_hostname p on) w.
Proof.
  intros Hn. unfold main, gather_facts.
  cbn [with_esxi_hostname p_datastore_name]. rewrite Hn. reflexivity.
Qed.

(** X22. Asking for the datastores of a host that does not resolve fails:
    the run does not answer with an empty list. *)
Theorem facts_of_missing_host_fail (p : Params) (w : W)
    (c : ascii) (cs : string) :
  truthy (p_datastore_name p) = false ->
  p_esxi_hostname p = Some (String c cs) ->
  find_hostsystem_by_name w (String c cs) = None ->
  connect_to_api w = inr tt ->
  exists msg, main true p w = Exit (FailJson msg).
Proof.
  intros Hn Hh Hf Hc. unfold main, try_except, gather_facts, bind.
  cbn [negb]. rewrite Hc, Hh, Hf.
  destruct (p_datastore_name p) as [[|c' cs']|]; try discriminate Hn;
    cbn; eauto.
Qed.

Lemma collect_fails_on_non_vmfs (l : list Datastore) (d : Datastore) :
  In d l -> info_vmfs d = None ->
  exists msg,
    collect (fun d => read_datastore (Some d)) l = Exit (FailJson msg).
Proof.
  intros Hin Hv. induction l as [|x l IH]; [contradiction|].
  cbn [collect]. unfold bind.
  destruct (read_datastore (Some x)) as [r|e|j] eqn:Hr.
  - destruct Hin as [->|Hin].
    + unfold read_datastore, try_except in Hr. rewrite Hv in Hr.
      discriminate Hr.
    + destruct (IH Hin) as [msg ->]. eauto.
  - exfalso. revert Hr. unfold read_datastore, try_except.
    destruct (info_vmfs x); discriminate.
  - destruct (read_datastore_exit _ _ Hr) as [msg ->]. eauto.
Qed.

(** X23. One datastore without a VMFS volume among those reported makes
    the whole facts run fail: no partial list is returned. *)
Theorem one_non_vmfs_datastore_fails_the_facts (p : Params) (w : W)
    (d : Datastore) :
  connect_to_api w = inr tt ->
  In d (selected p w) ->
  info_vmfs d = None ->
  exists msg, main true p w = Exit (FailJson msg).
Proof.
  intros Hc Hin Hv. unfold main, try_except. cbn [negb]. rewrite Hc.
  unfold gather_facts, selected in *.
  destruct (p_datastore_name p) as [[|c cs]|].
  2: { destruct (find_datastore_by_name w (String c cs)) as [d'|];
         [|contradiction].
       destruct Hin as [->|[]]. unfold bind, read_datastore, try_except.
       rewrite Hv. cbn. eauto. }
  all: destruct (p_esxi_hostname p) as [[|c cs]|];
    try (destruct (collect_fails_on_non_vmfs _ d Hin Hv) as [msg Hm];
         unfold bind; rewrite Hm; eauto).
  all: destruct (find_hostsystem_by_name w (String c cs)) as [h|];
    [|contradiction];
    destruct (collect_fails_on_non_vmfs _ d Hin Hv) as [msg Hm];
    unfold bind; rewrite Hm; eauto.
Qed.

Lemma collect_succeeds_on_vmfs (l : list Datastore) :
  Forall (fun d => is_vmfs d = true) l ->
  exists rs,
    collect (fun d => read_datastore (Some d)) l = Ret rs /\
    List.length rs = List.length l.
Proof.
  induction 1 as [|d l Hd _ (rs & Hrs & Hlen)].
  - exists []. split; reflexivity.
  - cbn [collect]. unfold bind, read_datastore at 1, try_except.
    unfold is_vmfs in Hd. destruct (info_vmfs d); [|discriminate Hd].
    rewrite Hrs. eexists. split; [reflexivity|]. cbn. rewrite Hlen.
    reflexivity.
Qed.

(** X24. With the session up, the selection resolvable and every selected
    datastore a VMFS one, the facts run succeeds with [changed=false] and
    one record per selected datastore. *)
Theorem facts_succeed_on_vmfs (p : Params) (w : W) :
  connect_to_api w = inr tt ->
  resolvable p w ->
  Forall (fun d => is_vmfs d = true) (selected p w) ->
  exists dss,
    main true p w = Exit (ExitJson false dss) /\
    List.length dss = List.length (selected p w).
Proof.
  intros Hc Hres Hall. unfold main, try_except. cbn [negb]. rewrite Hc.
  unfold gather_facts, selected, resolvable in *.
  destruct (p_datastore_name p) as [[|c cs]|].
  2: { destruct (find_datastore_by_name w (String c cs)) as [d|];
         [|contradiction].
       inversion Hall as [|? ? Hd _]; subst.
       unfold bind, read_datastore, try_except.
       unfold is_vmfs in Hd. destruct (info_vmfs d); [|discriminate Hd].
       eexists. split; reflexivity. }
  all: destruct (p_esxi_hostname p) as [[|c cs]|];
    try (destruct (collect_succeeds_on_vmfs _ Hall) as (rs & Hrs & Hlen);
         unfold bind; rewrite Hrs; eauto).
  all: destruct (find_hostsystem_by_name w (String c cs)) as [h|];
    [|contradiction];
    destruct (collect_succeeds_on_vmfs _ Hall) as (rs & Hrs & Hlen);
    unfold bind; rewrite Hrs; eauto.
Qed.

End FactsBehaviour.

(** ** Matching the device against the extents *)

Section Matching.
Import Py Vim Props vmware_host_datastore_san.

Lemma list_in_true (x : string) (l : list string) :
  list_in x l = true <-> In x l.
Proof.
  unfold list_in. rewrite existsb_exists. split.
  - intros (y & Hy & E). apply String.eqb_eq in E. subst. exact Hy.
  - intros H. exists x. split; [exact H|apply String.eqb_refl].
Qed.

Lemma lower_keeps_dots (s : string) : has_char "." (lower s) = has_char "." s.
Proof.
  induction s as [|c s IH]; cbn; [reflexivity|]. rewrite IH. f_equal.
  destruct c as [[] [] [] [] [] [] [] []]; reflexivity.
Qed.

Lemma split_without_sep (sep : ascii) (s : string) :
  has_char sep s = false -> split sep s = [s].
Proof.
  induction s as [|c s IH]; cbn; [reflexivity|].
  destruct (Ascii.eqb c sep); cbn; [discriminate|].
  intros H. rewrite (IH H). reflexivity.
Qed.

Lemma existing_wwns_no_dot (vmfs : HostVmfsVolume) (x : string) :
  In x (existing_wwns vmfs) -> has_char "." x = false.
Proof.
  unfold existing_wwns. rewrite in_map_iff. intros (e & <- & _).
  apply (split_dot_last_trailing (diskName e)).
Qed.

(** X25. The device path of a create and the extent check of a later run
    agree: an extent on the disk [naa.<lower-cased device>] yields the
    lower-cased device as its identifier, so the device is found among
    the extents, provided the device name holds no dot. *)
Theorem created_extent_is_recognised (vmfs : HostVmfsVolume)
    (x : HostScsiDiskPartition) (dev : string) :
  In x (extent vmfs) ->
  diskName x = "naa." ++ lower dev ->
  has_char "." dev = false ->
  list_in (lower dev) (existing_wwns vmfs) = true.
Proof.
  intros Hin Hd Hdot. apply list_in_true. unfold existing_wwns.
  apply in_map_iff. exists x. split; [|exact Hin].
  rewrite Hd. unfold split_dot_last.
  change ("naa." ++ lower dev)
    with (String "n" (String "a" (String "a" (String "." (lower dev))))).
  cbn [split Ascii.eqb Bool.eqb].
  rewrite split_without_sep by (rewrite lower_keeps_dots; exact Hdot).
  reflexivity.
Qed.

(** X26. A device name that holds a dot is never found among the extents,
    whatever they are: extent identifiers are trailing dot-separated
    segments and hold none. *)
Theorem dotted_device_never_matches (vmfs : HostVmfsVolume) (dev : string) :
  has_char "." dev = true ->
  list_in (lower dev) (existing_wwns vmfs) = false.
Proof.
  intros Hdot. destruct (list_in (lower dev) (existing_wwns vmfs)) eqn:E;
    [|reflexivity].
  apply list_in_true, existing_wwns_no_dot in E.
  rewrite lower_keeps_dots, Hdot in E. discriminate E.
Qed.

(** X27. Only the parameter is lower-cased, not the extents: an extent
    identifier that is not in lower case already is matched by no device
    name, in whatever case it is given. *)
Theorem mixed_case_extent_never_matches (vmfs : HostVmfsVolume)
    (dev : string) :
  Forall (fun x => lower x <> x) (existing_wwns vmfs) ->
  list_in (lower dev) (existing_wwns vmfs) = false.
Proof.
  intros Hall. destruct (list_in (lower dev) (existing_wwns vmfs)) eqn:E;
    [|reflexivity].
  apply list_in_true in E. rewrite Forall_forall in Hall.
  exfalso. apply (Hall _ E). apply lower_idem.
Qed.

End Matching.

(** ** The further theorems at work on the simulated inventories *)

Section MoreScenarios.
Import Py Vim Ansible Props Behaviour Lab Cases.
Import vmware_host_datastore_san.
#[local] Existing Instance Faulty.api.

Lemma rescan_fault_fails_witness :
  main (params None absent)
       (Faulty.with_fault (Faulty.PRescanAllHba "H1") settled_world) =
    (Exit (FailJson "An error occurred during host configuration."),
     Faulty.with_fault (Faulty.PRescanAllHba "H1") settled_world,
     [CRescanAllHba H1]).
Proof.
  apply (rescan_fault_fails (params None absent)
           (Faulty.with_fault (Faulty.PRescanAllHba "H1") settled_world)
           H1 Faulty.host_config_fault); reflexivity.
Defined.

Lemma present_other_device_is_noop_witness :
  main (params (Some other_device) present) grown_world =
    (Exit (ExitJson false None), grown_world, [CRescanAllHba H1]).
Proof.
  apply (present_other_device_is_noop (params (Some other_device) present)
           grown_world grown_world H1 SAN_DS01 SAN_DS01_vmfs);
    try reflexivity.
  intros dev H. inversion H. reflexivity.
Defined.

Lemma expand_without_match_fails_witness :
  main (params (Some device) present) mismatch_world =
    (Exit (FailJson ("Cannot mount datastore " ++ "SAN_DS01" ++
                     " on host " ++ "H1" ++ " : list index out of range")),
     mismatch_world,
     [CRescanAllHba H1; CQueryVmfsDatastoreExpandOptions H1 SAN_DS01]).
Proof.
  apply (expand_without_match_fails (params (Some device) present)
           mismatch_world mismatch_world H1 SAN_DS01 SAN_DS01_vmfs device
           (expand_option other_disk 1024) []);
    try reflexivity.
  repeat constructor.
Defined.

Lemma removal_without_mounts_witness :
  main (params None absent) idle_world =
    (Exit (ExitJson true (Some ("Datastore " ++ "SAN_DS01" ++
                                " on host " ++ "H1"))),
     with_datastores idle_world [],
     [CRescanAllHba H1; CRemoveDatastore H1 idle_SAN_DS01]).
Proof.
  apply (removal_without_mounts (params None absent) idle_world idle_world
           (with_datastores idle_world []) H1 idle_SAN_DS01);
    reflexivity.
Defined.

Lemma removal_of_non_vmfs_fails_witness :
  exists tail,
    main (params None absent) nfs_world =
      (Exit (FailJson ("Cannot umount datastore " ++ "SAN_DS01" ++
                       " from host " ++ "H1" ++ ": " ++ tail)),
       nfs_world, [CRescanAllHba H1]).
Proof.
  apply (removal_of_non_vmfs_fails (params None absent) nfs_world nfs_world
           H1 nfs_SAN_DS01 {| key := H1 |} []);
    reflexivity.
Defined.

Lemma removal_fault_after_unmounts_witness :
  main (params None absent)
       (Faulty.with_fault Faulty.PRemoveDatastore settled_world) =
    (Exit (FailJson ("Cannot umount datastore " ++ "SAN_DS01" ++
                     " from host " ++ "H1" ++ ": " ++
                     umount_text Faulty.host_config_fault)),
     Faulty.with_fault Faulty.PRemoveDatastore unmounted_world,
     ([CRescanAllHba H1] ++ unmount_calls "5f3c-0001" (host SAN_DS01)
      ++ [CRemoveDatastore H1 SAN_DS01])%list).
Proof.
  apply (removal_fault_after_unmounts (params None absent)
           (Faulty.with_fault Faulty.PRemoveDatastore settled_world)
           (Faulty.with_fault Faulty.PRemoveDatastore settled_world)
           (Faulty.with_fault Faulty.PRemoveDatastore unmounted_world)
           H1 SAN_DS01 SAN_DS01_vmfs Faulty.host_config_fault);
    reflexivity.
Defined.

Lemma device_case_is_irrelevant_witness :
  main (params (Some device) present) grown_world =
  main (with_device (params (Some device) present) (Some (lower device)))
       grown_world.
Proof.
  apply (device_case_is_irrelevant (params (Some device) present) device
                                   grown_world).
  reflexivity.
Defined.

Lemma create_without_option_fails_witness :
  QueryVmfsDatastoreCreateOptions
    settled_world H1 ("/vmfs/devices/disks/naa." ++ lower other_device)
    = inr [] /\
  main (params (Some other_device) present)
       (with_datastores settled_world [LOCAL_DS]) =
    (Exit (FailJson ("Cannot mount datastore " ++ "SAN_DS01" ++
                     " on host " ++ "H1" ++ " : list index out of range")),
     with_datastores settled_world [LOCAL_DS],
     [CRescanAllHba H1;
      CQueryVmfsDatastoreCreateOptions
        H1 ("/vmfs/devices/disks/naa." ++ lower other_device)]).
Proof.
  split; [reflexivity|].
  destruct (create_without_option_fails
              (params (Some other_device) present)
              (with_datastores settled_world [LOCAL_DS])
              (with_datastores settled_world [LOCAL_DS]) H1)
    as [_ Hempty]; [reflexivity ..|].
  apply Hempty. reflexivity.
Defined.

Lemma create_fault_fails_witness :
  main (params (Some device) present)
       (Faulty.with_fault Faulty.PCreateVmfsDatastore empty_world) =
    (Exit (FailJson ("Cannot mount datastore " ++ "SAN_DS01" ++
                     " on host " ++ "H1" ++ " : " ++
                     mount_text Faulty.host_config_fault)),
     Faulty.with_fault Faulty.PCreateVmfsDatastore empty_world,
     [CRescanAllHba H1;
      CQueryVmfsDatastoreCreateOptions H1 ("/vmfs/devices/disks/" ++ disk);
      CCreateVmfsDatastore
        H1 (set_volumeName (spec create_option) "SAN_DS01")]).
Proof.
  apply (create_fault_fails (params (Some device) present)
           (Faulty.with_fault Faulty.PCreateVmfsDatastore empty_world)
           (Faulty.with_fault Faulty.PCreateVmfsDatastore empty_world)
           H1 create_option [second_create_option]
           Faulty.host_config_fault);
    reflexivity.
Defined.

Lemma create_succeeds_witness :
  main (params (Some device) present) empty_world =
    (Exit (ExitJson true (Some ("Datastore " ++ "SAN_DS01" ++
                                " on host " ++ "H1"))),
     with_datastores empty_world [created_SAN_DS01],
     ([CRescanAllHba H1;
       CQueryVmfsDatastoreCreateOptions H1 ("/vmfs/devices/disks/" ++ disk);
       CCreateVmfsDatastore
         H1 (set_volumeName (spec create_option) "SAN_DS01")]
      ++ sibling_rescans "H1" [H1; H2])%list).
Proof.
  eapply eq_trans;
    [ apply (create_succeeds (params (Some device) present)
               empty_world empty_world
               (with_datastores empty_world [created_SAN_DS01])
               (with_datastores empty_world [created_SAN_DS01])
               H1 create_option [second_create_option] created_SAN_DS01);
      reflexivity
    | reflexivity ].
Defined.

Lemma create_in_cluster_ignores_task_flag_witness :
  main (in_cluster "Pod1" (params (Some device) present)) empty_world =
    (Exit (ExitJson true
             (Some ("Datastore " ++ "SAN_DS01" ++ " of cluster " ++ "Pod1" ++
                    " on host " ++ "H1" ++ " : " ++ "None"))),
     with_datastores empty_world [created_SAN_DS01],
     ([CRescanAllHba H1;
       CQueryVmfsDatastoreCreateOptions H1 ("/vmfs/devices/disks/" ++ disk);
       CCreateVmfsDatastore
         H1 (set_volumeName (spec create_option) "SAN_DS01");
       CMoveIntoFolder_Task
         {| me_name := "Pod1"; me_ref := "group-p7" |}
         [ {| me_name := "SAN_DS01"; me_ref := "datastore-11" |} ];
       CWaitForTask {| task_ref := "task-1" |}]
      ++ sibling_rescans "H1" [H1; H2])%list).
Proof.
  eapply eq_trans;
    [ apply (create_in_cluster_ignores_task_flag
               (in_cluster "Pod1" (params (Some device) present))
               empty_world empty_world
               (with_datastores empty_world [created_SAN_DS01])
               (with_datastores empty_world [created_SAN_DS01])
               (with_datastores empty_world [created_SAN_DS01])
               (with_datastores empty_world [created_SAN_DS01])
               H1 create_option [second_create_option] created_SAN_DS01
               "P" "od1" datastore_folder []
               {| me_name := "SAN_DS01"; me_ref := "datastore-11" |}
               {| me_name := "Pod1"; me_ref := "group-p7" |} [] []
               {| task_ref := "task-1" |} true "None");
      reflexivity
    | reflexivity ].
Defined.

Lemma sibling_rescan_fault_fails_witness :
  main (params (Some device) present)
       (Faulty.with_fault (Faulty.PRescanAllHba "H2") empty_world) =
    (Exit (FailJson ("Cannot mount datastore " ++ "SAN_DS01" ++
                     " on host " ++ "H1" ++ " : " ++
                     mount_text Faulty.host_config_fault)),
     Faulty.with_fault (Faulty.PRescanAllHba "H2")
       (with_datastores empty_world [created_SAN_DS01]),
     ([CRescanAllHba H1;
       CQueryVmfsDatastoreCreateOptions H1 ("/vmfs/devices/disks/" ++ disk);
       CCreateVmfsDatastore
         H1 (set_volumeName (spec create_option) "SAN_DS01")]
      ++ sibling_rescans "H1" [H1] ++ [CRescanAllHba H2])%list).
Proof.
  eapply eq_trans;
    [ apply (sibling_rescan_fault_fails (params (Some device) present)
               (Faulty.with_fault (Faulty.PRescanAllHba "H2") empty_world)
               (Faulty.with_fault (Faulty.PRescanAllHba "H2") empty_world)
               (Faulty.with_fault (Faulty.PRescanAllHba "H2")
                  (with_datastores empty_world [created_SAN_DS01]))
               (Faulty.with_fault (Faulty.PRescanAllHba "H2")
                  (with_datastores empty_world [created_SAN_DS01]))
               H1 H2 create_option [second_create_option] created_SAN_DS01
               [H1] [] Faulty.host_config_fault);
      try reflexivity; discriminate
    | reflexivity ].
Defined.

Lemma present_never_unmounts_or_removes_witness :
  Forall (fun c => present_call c = true)
         (snd (main (params (Some device) present) roomy_world)).
Proof.
  apply (present_never_unmounts_or_removes (params (Some device) present)
           eq_refl roomy_world).
Defined.

Lemma absent_never_creates_or_expands_witness :
  Forall (fun c => absent_call c = true)
         (snd (main (params None absent) busy_world)).
Proof.
  apply (absent_never_creates_or_expands (params None absent)
           eq_refl busy_world).
Defined.

Lemma rescan_comes_first_witness :
  exists rest,
    snd (main (params None absent) busy_world) = CRescanAllHba H1 :: rest.
Proof.
  apply (rescan_comes_first (params None absent) busy_world H1).
  reflexivity.
Defined.


Lemma changed_counts_mutations_witness :
  List.length
    (filter is_mutation
       (snd (main (params (Some device) present) empty_world))) = 1.
Proof.
  apply (changed_counts_mutations (params (Some device) present)
           empty_world
           (with_datastores empty_world [created_SAN_DS01])
           true (Some "Datastore SAN_DS01 on host H1")).
  reflexivity.
Defined.

Lemma facts_of_missing_datastore_fail_witness :
  exists msg,
    vmware_datastore_san_facts.main
      true (facts_params (Some "NO_SUCH_DS") None) settled_world
    = Exit (vmware_datastore_san_facts.FailJson msg).
Proof.
  apply (facts_of_missing_datastore_fail
           (facts_params (Some "NO_SUCH_DS") None) settled_world
           "N" "O_SUCH_DS"); reflexivity.
Defined.

Lemma datastore_name_takes_precedence_witness :
  vmware_datastore_san_facts.main
    true (facts_params (Some "SAN_DS01") (Some "H3")) settled_world
  = vmware_datastore_san_facts.main
      true (with_esxi_hostname (facts_params (Some "SAN_DS01") (Some "H3"))
                               (Some "H9"))
      settled_world.
Proof.
  apply (datastore_name_takes_precedence
           true (facts_params (Some "SAN_DS01") (Some "H3")) settled_world
           "S" "AN_DS01" (Some "H9")).
  reflexivity.
Defined.

Lemma facts_of_missing_host_fail_witness :
  exists msg,
    vmware_datastore_san_facts.main
      true (facts_params None (Some "H9")) settled_world
    = Exit (vmware_datastore_san_facts.FailJson msg).
Proof.
  apply (facts_of_missing_host_fail
           (facts_params None (Some "H9")) settled_world "H" "9");
    reflexivity.
Defined.

Lemma one_non_vmfs_datastore_fails_the_facts_witness :
  exists msg,
    vmware_datastore_san_facts.main true (facts_params None None) nfs_world
    = Exit (vmware_datastore_san_facts.FailJson msg).
Proof.
  apply (one_non_vmfs_datastore_fails_the_facts
           (facts_params None None) nfs_world nfs_SAN_DS01);
    [reflexivity|cbn; right; left; reflexivity|reflexivity].
Defined.

Lemma facts_succeed_on_vmfs_witness :
  exists dss,
    vmware_datastore_san_facts.main
      true (facts_params None (Some "H1")) settled_world
    = Exit (vmware_datastore_san_facts.ExitJson false dss) /\
    List.length dss
    = List.length (selected (facts_params None (Some "H1")) settled_world).
Proof.
  apply (facts_succeed_on_vmfs (facts_params None (Some "H1"))
                               settled_world).
  - reflexivity.
  - cbn. discriminate.
  - repeat constructor.
Defined.

Lemma created_extent_is_recognised_witness :
  list_in (lower device) (existing_wwns SAN_DS01_vmfs) = true.
Proof.
  apply (created_extent_is_recognised SAN_DS01_vmfs
           {| diskName := disk; partition := 1 |} device).
  - left. reflexivity.
  - reflexivity.
  - reflexivity.
Defined.

Lemma dotted_device_never_matches_witness :
  list_in (lower "naa.600508B4") (existing_wwns SAN_DS01_vmfs) = false.
Proof.
  apply (dotted_device_never_matches SAN_DS01_vmfs "naa.600508B4").
  reflexivity.
Defined.

Lemma mixed_case_extent_never_matches_witness :
  list_in (lower "600508B4")
          (existing_wwns {| vmfs_type := "VMFS"; uuid := "5f3c-0007";
                            extent := [ {| diskName := "naa.600508B4";
                                           partition := 1 |} ] |})
  = false.
Proof.
  apply (mixed_case_extent_never_matches
           {| vmfs_type := "VMFS"; uuid := "5f3c-0007";
              extent := [ {| diskName := "naa.600508B4";
                             partition := 1 |} ] |}
           "600508B4").
  constructor; [|constructor]. discriminate.
Defined.

End MoreScenarios.
